(** * browser-chess-ai: the engine wrapper and the board UI

    A shallow embedding of [src/stockfish/Engine.ts] (class [ChessEngine]),
    of [src/types/stockfish.ts] (the [StockfishCommand] union) and of the
    event handlers of [src/main.ts].

    - JavaScript strings are [string]; every string the code builds or
      inspects here is ASCII, where code units and bytes coincide.
    - A JavaScript [number] is kept abstract behind the class [JsNumber]
      (its decimal rendering and the two tests that decide truthiness);
      [IntOrNaN] is the instance for the values [parseInt] returns.
    - A function that may [throw] returns an [outcome].
    - The worker is an external process: a [Worker] records the messages
      passed to [postMessage], oldest first, and the messages it emits are
      events of the model. *)

From Stdlib Require Import String Ascii List Bool Arith ZArith Lia.
From Stdlib Require Import DecimalString Permutation.
Import ListNotations.

Local Open Scope list_scope.
Local Open Scope string_scope.

(** ** JavaScript values *)

(** What the code asks of a [number]: [`${n}`] and [if (n)]. *)
Class JsNumber (number : Type) := {
  Number_toString : number -> string;
  Number_isZero : number -> bool;     (* +0 or -0 *)
  Number_isNaN : number -> bool;
  Number_mul : number -> number -> number;
  Number_lit : Z -> number
}.

(** ToBoolean on a number: false for +0, -0 and NaN. *)
Definition Number_truthy {number} `{JsNumber number} (n : number) : bool :=
  negb (Number_isZero n || Number_isNaN n).

(** ToBoolean on a string: false for the empty string only. *)
Definition String_truthy (s : string) : bool :=
  match s with
  | EmptyString => false
  | String _ _ => true
  end.

(** The numbers [parseInt] returns: an integer or NaN. *)
Inductive IntOrNaN : Type :=
| Int (z : Z)
| NaN.

Definition IntOrNaN_toString (n : IntOrNaN) : string :=
  match n with
  | Int z => NilZero.string_of_int (Z.to_int z)
  | NaN => "NaN"
  end.

#[export] Instance IntOrNaN_JsNumber : JsNumber IntOrNaN := {
  Number_toString := IntOrNaN_toString;
  Number_isZero := fun n => match n with Int z => Z.eqb z 0 | NaN => false end;
  Number_isNaN := fun n => match n with Int _ => false | NaN => true end;
  Number_mul := fun a b =>
    match a, b with
    | Int x, Int y => Int (x * y)
    | _, _ => NaN
    end;
  Number_lit := Int
}.

(** [s.startsWith(p)] *)
Definition startsWith (s p : string) : bool := String.prefix p s.

(** [s.split(' ')]: the pieces between single spaces, empty pieces kept;
    the result always has at least one element. *)
Fixpoint split_space (s : string) : list string :=
  match s with
  | EmptyString => [EmptyString]
  | String c rest =>
      if Ascii.eqb c " "%char then EmptyString :: split_space rest
      else match split_space rest with
           | piece :: pieces => String c piece :: pieces
           | [] => [String c EmptyString]
           end
  end.

(** [a[i]] on an array: [undefined] out of range. *)
Definition array_get {A} (a : list A) (i : nat) : option A := nth_error a i.

(** A call that may throw [new Error(msg)]. *)
Inductive outcome (A : Type) : Type :=
| Returns (a : A)
| Throws (msg : string).
Arguments Returns {A} a.
Arguments Throws {A} msg.

(** ** src/types/stockfish.ts *)

Module Stockfish.

(** The four string members of [StockfishCommand]. *)
Inductive Literal : Type := uci | isready | ucinewgame | quit.

Definition Literal_text (l : Literal) : string :=
  match l with
  | uci => "uci"
  | isready => "isready"
  | ucinewgame => "ucinewgame"
  | quit => "quit"
  end.

Section Commands.
Context {number : Type} `{JsNumber number}.

(** [value: string | number] of the setoption command. *)
Inductive OptionValue : Type :=
| ValString (s : string)
| ValNumber (n : number).

(** [StockfishCommand].  [CmdOther] is an object whose [cmd] tag is none of
    the three; the type excludes it, the last [else] of [postCommand]
    handles it. *)
Inductive StockfishCommand : Type :=
| CmdLiteral (l : Literal)
| CmdPosition (fen : string)
| CmdGo (movetime depth : option number)
| CmdSetoption (name : string) (value : OptionValue)
| CmdOther (tag : string).

(** [`${value}`] *)
Definition OptionValue_text (v : OptionValue) : string :=
  match v with
  | ValString s => s
  | ValNumber n => Number_toString n
  end.

(** [interface StockfishWorker]: the strings given to [postMessage]. *)
Record StockfishWorker : Type := mkWorker { posted : list string }.

Definition postMessage (w : StockfishWorker) (message : string) : StockfishWorker :=
  {| posted := (posted w ++ [message])%list |}.

End Commands.
Arguments OptionValue : clear implicits.
Arguments StockfishCommand : clear implicits.
End Stockfish.
Import Stockfish.

(** ** src/stockfish/Engine.ts *)

Module Engine.
Section ChessEngine.
Context {number : Type} `{JsNumber number}.
(** The type of the [onBestMove] callbacks a client installs. *)
Context {Callback : Type}.

Record ChessEngine : Type := mkEngine {
  worker : option StockfishWorker;
  onBestMove : option Callback
}.

(** [new ChessEngine()] *)
Definition new_ChessEngine : ChessEngine :=
  {| worker := None; onBestMove := None |}.

Definition set_worker (e : ChessEngine) (w : StockfishWorker) : ChessEngine :=
  {| worker := Some w; onBestMove := onBestMove e |}.

Definition set_onBestMove (e : ChessEngine) (cb : option Callback) : ChessEngine :=
  {| worker := worker e; onBestMove := cb |}.

(** The synchronous part of [init()]: a new worker ([new Worker] is taken
    to succeed), the two handlers, then [postMessage('uci')] and
    [postMessage('isready')].  The promise it returns is pending
    afterwards. *)
Definition init (e : ChessEngine) : ChessEngine :=
  let w := mkWorker [] in
  let w := postMessage w "uci" in
  let w := postMessage w "isready" in
  set_worker e w.

(** What the [onmessage] closure of [init] does with one message. *)
Inductive Reaction : Type :=
| Resolve                                    (* [resolve()] *)
| BestMove (cb : Callback) (move : string)   (* [this.onBestMove(move)] *)
| Nothing.

Definition onmessage (e : ChessEngine) (data : string) : Reaction :=
  if String.eqb data "readyok" then Resolve
  else if startsWith data "bestmove" then
    let parts := split_space data in
    let move := array_get parts 1 in
    match onBestMove e, move with
    | Some cb, Some move =>
        if String_truthy move && negb (String.eqb move "(none)")
        then BestMove cb move
        else Nothing
    | _, _ => Nothing
    end
  else Nothing.

(** The [message] that [postCommand] builds; [None] is the [return] of the
    last [else]. *)
Definition go_message (depth movetime : option number) : string :=
  let message := "go" in
  let message :=
    match depth with
    | Some d => if Number_truthy d then message ++ " depth " ++ Number_toString d
                else message
    | None => message
    end in
  let message :=
    match movetime with
    | Some m => if Number_truthy m then message ++ " movetime " ++ Number_toString m
                else message
    | None => message
    end in
  message.

Definition command_message (cmd : StockfishCommand number) : option string :=
  match cmd with
  | CmdLiteral l => Some (Literal_text l)
  | CmdPosition fen => Some ("position fen " ++ fen)
  | CmdGo movetime depth => Some (go_message depth movetime)
  | CmdSetoption name value =>
      Some ("setoption name " ++ name ++ " value " ++ OptionValue_text value)
  | CmdOther _ => None
  end.

Definition postCommand (e : ChessEngine) (cmd : StockfishCommand number)
  : outcome ChessEngine :=
  match worker e with
  | None => Throws "Engine not initialized"
  | Some w =>
      match command_message cmd with
      | Some message => Returns (set_worker e (postMessage w message))
      | None => Returns e
      end
  end.

(** The argument of [search]. *)
Record SearchOptions : Type := mkOptions {
  depth : option number;
  movetime : option number
}.

Definition search (e : ChessEngine) (options : SearchOptions) : outcome ChessEngine :=
  postCommand e (CmdGo (movetime options) (depth options)).

Definition newGame (e : ChessEngine) : outcome ChessEngine :=
  postCommand e (CmdLiteral ucinewgame).

Definition setPosition (e : ChessEngine) (fen : string) : outcome ChessEngine :=
  postCommand e (CmdPosition fen).

(** The messages the engine's worker has been given so far; none without
    a worker. *)
Definition messages_of (e : ChessEngine) : list string :=
  match worker e with
  | Some w => posted w
  | None => []
  end.

End ChessEngine.
Arguments ChessEngine : clear implicits.
Arguments Reaction : clear implicits.
Arguments SearchOptions : clear implicits.
End Engine.
Import Engine.

(** ** The engine and its worker over time

    A [Session] is a [ChessEngine] together with what the outside has done
    to it: the state of the promise the latest [init()] returned, and the
    messages the worker of that [init()] has emitted. *)

Module Session.
Section Session.
Context {number : Type} `{JsNumber number}.
Context {Callback : Type}.

Inductive PromiseState : Type := Pending | Fulfilled | Rejected.

(** [resolve()] and [reject(e)] only act on a pending promise. *)
Definition resolve (p : PromiseState) : PromiseState :=
  match p with Pending => Fulfilled | _ => p end.

Definition reject (p : PromiseState) : PromiseState :=
  match p with Pending => Rejected | _ => p end.

Record Session : Type := mkSession {
  engine : ChessEngine Callback;
  promise : option PromiseState;     (* [None]: [init()] not called yet *)
  emitted : list string              (* by the current worker, oldest first *)
}.

Definition fresh : Session :=
  {| engine := new_ChessEngine; promise := None; emitted := [] |}.

Definition with_engine (s : Session) (e : ChessEngine Callback) : Session :=
  {| engine := e; promise := promise s; emitted := emitted s |}.

(** A call that throws leaves the engine as it was. *)
Definition after (s : Session) (r : outcome (ChessEngine Callback)) : Session :=
  match r with
  | Returns e => with_engine s e
  | Throws _ => s
  end.

(** The worker emits [data]: the [onmessage] closure runs. *)
Definition receive (s : Session) (data : string) : Session * Reaction Callback :=
  match worker (engine s) with
  | None => (s, Nothing)
  | Some _ =>
      let r := onmessage (engine s) data in
      ({| engine := engine s;
          promise := match r with
                     | Resolve => option_map resolve (promise s)
                     | _ => promise s
                     end;
          emitted := (emitted s ++ [data])%list |}, r)
  end.

Inductive Op : Type :=
| CallInit
| CallPostCommand (cmd : StockfishCommand number)
| CallSearch (options : SearchOptions number)
| CallNewGame
| CallSetPosition (fen : string)
| AssignOnBestMove (cb : option Callback)
| WorkerMessage (data : string)
| WorkerError.

Definition step (s : Session) (op : Op) : Session :=
  match op with
  | CallInit => {| engine := init (engine s); promise := Some Pending; emitted := [] |}
  | CallPostCommand cmd => after s (postCommand (engine s) cmd)
  | CallSearch options => after s (search (engine s) options)
  | CallNewGame => after s (newGame (engine s))
  | CallSetPosition fen => after s (setPosition (engine s) fen)
  | AssignOnBestMove cb => with_engine s (set_onBestMove (engine s) cb)
  | WorkerMessage data => fst (receive s data)
  | WorkerError =>
      {| engine := engine s;
         promise := option_map reject (promise s);
         emitted := emitted s |}
  end.

Definition run (s : Session) (ops : list Op) : Session := fold_left step ops s.

(** The operations that call [postCommand]. *)
Definition posts (op : Op) : bool :=
  match op with
  | CallPostCommand _ | CallSearch _ | CallNewGame | CallSetPosition _ => true
  | _ => false
  end.

(** What holds of a session at every moment: a promise exists only with a
    worker, a fulfilled promise means the worker has emitted 'readyok', and
    a worker's messages begin with 'uci' and 'isready'. *)
Definition handshaken (s : Session) : Prop :=
  (promise s <> None -> worker (engine s) <> None) /\
  (promise s = Some Fulfilled -> In "readyok" (emitted s)) /\
  (forall w, worker (engine s) = Some w ->
             exists rest, posted w = "uci" :: "isready" :: rest).

End Session.
Arguments Session : clear implicits.
Arguments Op : clear implicits.
End Session.

(** ** The command forms of the protocol *)

Module Protocol.
Section Forms.
Context {number : Type} `{JsNumber number}.

(** An optional field of the [go] command, written whenever it is supplied. *)
Definition go_field (label : string) (v : option number) : string :=
  match v with
  | Some n => label ++ Number_toString n
  | None => ""
  end.

(** The same field, written when it is supplied and truthy. *)
Definition go_field_truthy (label : string) (v : option number) : string :=
  match v with
  | Some n => if Number_truthy n then label ++ Number_toString n else ""
  | None => ""
  end.



End Forms.
End Protocol.
Import Protocol.

(** ** chess.js, as far as main.ts uses it *)

Module ChessJs.

(** ['w' | 'b'] *)
Inductive Color : Type := White | Black.

Definition Color_eqb (x y : Color) : bool :=
  match x, y with
  | White, White | Black, Black => true
  | _, _ => false
  end.

(** ['p' | 'n' | 'b' | 'r' | 'q' | 'k'] *)
Inductive PieceSymbol : Type := Pawn | Knight | Bishop | Rook | Queen | King.

Definition PieceSymbol_text (t : PieceSymbol) : string :=
  match t with
  | Pawn => "p" | Knight => "n" | Bishop => "b"
  | Rook => "r" | Queen => "q" | King => "k"
  end.

(** [t.toUpperCase()] on a piece symbol *)
Definition PieceSymbol_upper (t : PieceSymbol) : string :=
  match t with
  | Pawn => "P" | Knight => "N" | Bishop => "B"
  | Rook => "R" | Queen => "Q" | King => "K"
  end.

Definition Square : Type := string.

Record Piece : Type := mkPiece {
  piece_color : Color;
  piece_type : PieceSymbol
}.

(** The fields of a verbose [Move] that main.ts reads. *)
Record Move : Type := mkMove {
  move_color : Color;
  move_from : Square;
  move_to : Square;
  move_piece : PieceSymbol;
  move_captured : option PieceSymbol;
  move_promotion : option PieceSymbol
}.

(** The methods of a [Chess] object that main.ts calls.  The observers do
    not change the game; [move] throws on a move that is not legal. *)
Class Chess (game : Type) := {
  new_Chess : game;
  Chess_turn : game -> Color;
  Chess_get : game -> Square -> option Piece;
  Chess_moves : game -> Square -> list Move;       (* moves({square, verbose: true}) *)
  Chess_move : game -> Move -> outcome game;       (* move(move) *)
  Chess_move_uci :                                 (* move({from, to, promotion}) *)
    game -> string -> string -> option string -> outcome game;
  Chess_history : game -> list Move;               (* history({verbose: true}) *)
  Chess_undo : game -> game;
  Chess_reset : game -> game;
  Chess_fen : game -> string;
  Chess_isGameOver : game -> bool;
  Chess_isCheckmate : game -> bool;
  Chess_isDraw : game -> bool;
  Chess_inCheck : game -> bool
}.

End ChessJs.
Import ChessJs.

(** ** src/main.ts *)

Module Main.

(** [onclick] of a square of the board: one of the two closures that
    [createSquareElement] installs. *)
Inductive Handler : Type :=
| OnHandleMove (move : Move)             (* [() => handleMove(move)] *)
| OnHandleSquareClick (square : Square). (* [() => handleSquareClick(square)] *)

Inductive Child : Type :=
| RankLabel (textContent : string)
| FileLabel (textContent : string)
| PieceSpan (textContent : option string) (className : string).

Record SquareElement : Type := mkSquareElement {
  classList : list string;
  dataset_square : Square;
  children : list Child;
  onclick : Handler
}.

(** One [div] of the move list; [innerHTML] kept as its parts. *)
Record HistoryElement : Type := mkHistoryElement {
  history_className : string;
  history_moveNumber : nat;
  history_pieceClass : string;
  history_pieceIcon : option string;
  history_from : Square;
  history_to : Square;
  history_captureIcon : option (option string)
}.

(** The elements the game logic writes.  The slider labels, the button
    styles and the modal are presentation only and left out. *)
Record Elements : Type := mkElements {
  board : list SquareElement;
  status : string;
  history : list HistoryElement
}.

Inductive AiMode : Type := ModeDepth | ModeTime.

(** The only [onBestMove] callback main.ts installs. *)
Inductive MainCallback : Type := InitOnBestMove.

(** [PIECES] *)
Definition PIECES : list (string * string) :=
  [("p", "♟"); ("n", "♞"); ("b", "♝"); ("r", "♜"); ("q", "♛"); ("k", "♚");
   ("P", "♙"); ("N", "♘"); ("B", "♗"); ("R", "♖"); ("Q", "♕"); ("K", "♔")].

(** [PIECES[key]] *)
Definition PIECES_get (key : string) : option string :=
  option_map snd (find (fun kv => String.eqb (fst kv) key) PIECES).

(** [String(n)] for a non-negative integer *)
Definition String_of_nat (n : nat) : string :=
  NilZero.string_of_uint (Nat.to_uint n).

(** [String.fromCharCode(n)] *)
Definition fromCharCode (n : nat) : string :=
  String (ascii_of_nat n) EmptyString.

Section Main.
Context {number : Type} `{JsNumber number}.
Context {Game : Type} `{Chess Game}.
(** [Math.max(1, (navigator.hardwareConcurrency || 1) / 5)] *)
Variable threads : number.

Record GameState : Type := mkGameState {
  playerColor : Color;
  aiMode : AiMode;
  aiDepth : number;
  aiTime : number;
  selectedSquare : option Square;
  possibleMoves : list Move;
  isAiThinking : bool;
  aiStartTime : number;
  isBoardRotated : bool
}.

(** The module's variables: [game], [engine] (with the promise of its
    [init()]), [gameState], the page, and the [setTimeout] callbacks of
    [makeAiMove] that have not run yet. *)
Record App : Type := mkApp {
  game : Game;
  engine : Session.Session MainCallback;
  gameState : GameState;
  elements : Elements;
  timeouts : nat
}.

Definition with_game (a : App) (g : Game) : App :=
  {| game := g; engine := engine a; gameState := gameState a;
     elements := elements a; timeouts := timeouts a |}.

Definition with_engine (a : App) (s : Session.Session MainCallback) : App :=
  {| game := game a; engine := s; gameState := gameState a;
     elements := elements a; timeouts := timeouts a |}.

Definition with_gameState (a : App) (gs : GameState) : App :=
  {| game := game a; engine := engine a; gameState := gs;
     elements := elements a; timeouts := timeouts a |}.

Definition with_elements (a : App) (els : Elements) : App :=
  {| game := game a; engine := engine a; gameState := gameState a;
     elements := els; timeouts := timeouts a |}.

Definition with_timeouts (a : App) (n : nat) : App :=
  {| game := game a; engine := engine a; gameState := gameState a;
     elements := elements a; timeouts := n |}.

Definition set_playerColor (gs : GameState) (c : Color) : GameState :=
  {| playerColor := c; aiMode := aiMode gs; aiDepth := aiDepth gs;
     aiTime := aiTime gs; selectedSquare := selectedSquare gs;
     possibleMoves := possibleMoves gs; isAiThinking := isAiThinking gs;
     aiStartTime := aiStartTime gs; isBoardRotated := isBoardRotated gs |}.

Definition set_aiMode (gs : GameState) (m : AiMode) : GameState :=
  {| playerColor := playerColor gs; aiMode := m; aiDepth := aiDepth gs;
     aiTime := aiTime gs; selectedSquare := selectedSquare gs;
     possibleMoves := possibleMoves gs; isAiThinking := isAiThinking gs;
     aiStartTime := aiStartTime gs; isBoardRotated := isBoardRotated gs |}.

Definition set_aiDepth (gs : GameState) (n : number) : GameState :=
  {| playerColor := playerColor gs; aiMode := aiMode gs; aiDepth := n;
     aiTime := aiTime gs; selectedSquare := selectedSquare gs;
     possibleMoves := possibleMoves gs; isAiThinking := isAiThinking gs;
     aiStartTime := aiStartTime gs; isBoardRotated := isBoardRotated gs |}.

Definition set_aiTime (gs : GameState) (n : number) : GameState :=
  {| playerColor := playerColor gs; aiMode := aiMode gs; aiDepth := aiDepth gs;
     aiTime := n; selectedSquare := selectedSquare gs;
     possibleMoves := possibleMoves gs; isAiThinking := isAiThinking gs;
     aiStartTime := aiStartTime gs; isBoardRotated := isBoardRotated gs |}.

(** [selectedSquare] and [possibleMoves] are always assigned together. *)
Definition set_selection (gs : GameState) (sq : option Square) (ms : list Move)
  : GameState :=
  {| playerColor := playerColor gs; aiMode := aiMode gs; aiDepth := aiDepth gs;
     aiTime := aiTime gs; selectedSquare := sq;
     possibleMoves := ms; isAiThinking := isAiThinking gs;
     aiStartTime := aiStartTime gs; isBoardRotated := isBoardRotated gs |}.

Definition set_isAiThinking (gs : GameState) (t : bool) : GameState :=
  {| playerColor := playerColor gs; aiMode := aiMode gs; aiDepth := aiDepth gs;
     aiTime := aiTime gs; selectedSquare := selectedSquare gs;
     possibleMoves := possibleMoves gs; isAiThinking := t;
     aiStartTime := aiStartTime gs; isBoardRotated := isBoardRotated gs |}.

Definition set_aiStartTime (gs : GameState) (n : number) : GameState :=
  {| playerColor := playerColor gs; aiMode := aiMode gs; aiDepth := aiDepth gs;
     aiTime := aiTime gs; selectedSquare := selectedSquare gs;
     possibleMoves := possibleMoves gs; isAiThinking := isAiThinking gs;
     aiStartTime := n; isBoardRotated := isBoardRotated gs |}.

Definition set_isBoardRotated (gs : GameState) (r : bool) : GameState :=
  {| playerColor := playerColor gs; aiMode := aiMode gs; aiDepth := aiDepth gs;
     aiTime := aiTime gs; selectedSquare := selectedSquare gs;
     possibleMoves := possibleMoves gs; isAiThinking := isAiThinking gs;
     aiStartTime := aiStartTime gs; isBoardRotated := r |}.

Definition set_board (els : Elements) (b : list SquareElement) : Elements :=
  {| board := b; status := status els; history := history els |}.

Definition set_status (els : Elements) (s : string) : Elements :=
  {| board := board els; status := s; history := history els |}.

Definition set_history (els : Elements) (h : list HistoryElement) : Elements :=
  {| board := board els; status := status els; history := h |}.

Definition clear_selection (gs : GameState) : GameState :=
  set_selection gs None [].

(** [array.map((x, index) => ...)] *)
Fixpoint mapi_from {A B} (f : A -> nat -> B) (i : nat) (l : list A) : list B :=
  match l with
  | [] => []
  | x :: rest => f x i :: mapi_from f (S i) rest
  end.

(** *** Rendering *)

Definition createSquareElement (a : App) (square : Square) (isLight : bool)
  (piece : option Piece) (lastMove : option Move)
  (rankLabel fileLabel : option string) : SquareElement :=
  let gs := gameState a in
  let classes := ["square"; if isLight then "light" else "dark"] in
  let kids :=
    match rankLabel with
    | Some t => if String_truthy t then [RankLabel t] else []
    | None => []
    end in
  let kids :=
    match fileLabel with
    | Some t => if String_truthy t then kids ++ [FileLabel t] else kids
    | None => kids
    end%list in
  let classes :=
    match selectedSquare gs with
    | Some s => if String.eqb s square then classes ++ ["selected"] else classes
    | None => classes
    end%list in
  let classes :=
    match lastMove with
    | Some lm =>
        if String.eqb (move_from lm) square || String.eqb (move_to lm) square
        then classes ++ ["last-move"] else classes
    | None => classes
    end%list in
  let move := find (fun m => String.eqb (move_to m) square) (possibleMoves gs) in
  let classes :=
    match move with
    | Some _ => classes ++ ["possible-move"]
    | None => classes
    end%list in
  let handler :=
    match move with
    | Some m => OnHandleMove m
    | None => OnHandleSquareClick square
    end in
  let kids :=
    match piece with
    | Some pc =>
        let char :=
          PIECES_get (match piece_color pc with
                      | White => PieceSymbol_upper (piece_type pc)
                      | Black => PieceSymbol_text (piece_type pc)
                      end) in
        kids ++ [PieceSpan char (match piece_color pc with
                                 | White => "piece-white"
                                 | Black => "piece-black"
                                 end)]
    | None => kids
    end%list in
  let classes :=
    if Chess_inCheck (game a)
       && match piece with
          | Some pc =>
              match piece_type pc with King => true | _ => false end
              && Color_eqb (piece_color pc) (Chess_turn (game a))
          | None => false
          end
    then (classes ++ ["check"])%list else classes in
  {| classList := classes; dataset_square := square;
     children := kids; onclick := handler |}.

Definition isFlipped (gs : GameState) : bool :=
  if isBoardRotated gs then Color_eqb (playerColor gs) White
  else Color_eqb (playerColor gs) Black.

(** [history.length > 0 ? history[history.length - 1] : null] *)
Definition lastMove_of (hist : list Move) : option Move :=
  match hist with
  | [] => None
  | m :: rest => Some (last rest m)
  end.

(** The body of the inner loop of [renderBoard], at [r] and [c]. *)
Definition renderBoard_cell (a : App) (r c : nat) : SquareElement :=
  let flipped := isFlipped (gameState a) in
  let lastMove := lastMove_of (Chess_history (game a)) in
  let row := if flipped then 7 - r else r in
  let col := if flipped then 7 - c else c in
  let square := fromCharCode (97 + col) ++ String_of_nat (8 - row) in
  let piece := Chess_get (game a) square in
  let isLight := Nat.eqb ((row + col) mod 2) 0 in
  let rankLabel := if Nat.eqb c 0 then Some (String_of_nat (8 - row)) else None in
  let fileLabel := if Nat.eqb r 7 then Some (fromCharCode (97 + col)) else None in
  createSquareElement a square isLight piece lastMove rankLabel fileLabel.

(** The fragment the two loops fill: [r] from 0 to 7, and for each [r],
    [c] from 0 to 7. *)
Definition renderBoard_fragment (a : App) : list SquareElement :=
  flat_map (fun r => map (fun c => renderBoard_cell a r c) (seq 0 8)) (seq 0 8).

(** [innerHTML = ''] then [appendChild(fragment)] *)
Definition renderBoard (a : App) : App :=
  let fragment := renderBoard_fragment a in
  let els := set_board (elements a) [] in
  let els := set_board els (board els ++ fragment)%list in
  with_elements a els.

Definition updateStatus (a : App) : App :=
  let g := game a in
  let text :=
    if Chess_isGameOver g then
      if Chess_isCheckmate g then
        "Checkmate! "
        ++ (match Chess_turn g with White => "Black" | Black => "White" end)
        ++ " wins."
      else if Chess_isDraw g then "Draw!"
      else "Game Over"
    else if isAiThinking (gameState a) then "AI is thinking..."
    else if Color_eqb (Chess_turn g) (playerColor (gameState a)) then "Your Turn"
    else "AI Turn" in
  with_elements a (set_status (elements a) text).

Definition renderHistory_entry (move : Move) (index : nat) : HistoryElement :=
  let pieceKey :=
    match move_color move with
    | White => PieceSymbol_upper (move_piece move)
    | Black => PieceSymbol_text (move_piece move)
    end in
  {| history_className := if Nat.eqb (index mod 2) 0 then "white" else "black";
     history_moveNumber := index / 2 + 1;
     history_pieceClass :=
       match move_color move with
       | White => "piece-white"
       | Black => "piece-black"
       end;
     history_pieceIcon := PIECES_get pieceKey;
     history_from := move_from move;
     history_to := move_to move;
     history_captureIcon :=
       match move_captured move with
       | Some cap =>
           Some (PIECES_get (match move_color move with
                             | White => PieceSymbol_text cap
                             | Black => PieceSymbol_upper cap
                             end))
       | None => None
       end |}.

Definition renderHistory (a : App) : App :=
  let fragment := mapi_from renderHistory_entry 0 (Chess_history (game a)) in
  with_elements a (set_history (elements a) fragment).

Definition updateUI (a : App) : App :=
  updateStatus (renderHistory (renderBoard a)).

(** *** Handlers

    An exception that leaves a handler ends it; what it had written by then
    stays written. *)

(** [makeAiMove]: the body of the [setTimeout] callback is [aiTimeout]. *)
Definition makeAiMove (a : App) : App :=
  let a := with_gameState a (set_isAiThinking (gameState a) true) in
  let a := updateStatus a in
  with_timeouts a (S (timeouts a)).

(** The callback [makeAiMove] hands to [setTimeout]; [now] is [Date.now()]. *)
Definition aiTimeout (a : App) (now : number) : App :=
  match setPosition (Session.engine (engine a)) (Chess_fen (game a)) with
  | Throws _ => a
  | Returns e =>
      let a := with_engine a (Session.with_engine (engine a) e) in
      let a := with_gameState a (set_aiStartTime (gameState a) now) in
      let options :=
        match aiMode (gameState a) with
        | ModeDepth => {| depth := Some (aiDepth (gameState a)); movetime := None |}
        | ModeTime => {| depth := None; movetime := Some (aiTime (gameState a)) |}
        end in
      with_engine a (Session.after (engine a) (search (Session.engine (engine a)) options))
  end.

Definition handleSquareClick (a : App) (square : Square) : App :=
  let gs := gameState a in
  if isAiThinking gs || Chess_isGameOver (game a) then a
  else if negb (Color_eqb (Chess_turn (game a)) (playerColor gs)) then a
  else
    let piece := Chess_get (game a) square in
    let own :=
      match piece with
      | Some pc => Color_eqb (piece_color pc) (playerColor gs)
      | None => false
      end in
    if own then
      let selected_again :=
        match selectedSquare gs with
        | Some s => String.eqb s square
        | None => false
        end in
      let gs :=
        if selected_again then clear_selection gs
        else set_selection gs (Some square) (Chess_moves (game a) square) in
      renderBoard (with_gameState a gs)
    else
      match selectedSquare gs with
      | Some s =>
          if String_truthy s
          then renderBoard (with_gameState a (clear_selection gs))
          else a
      | None => a
      end.

Definition handleMove (a : App) (move : Move) : App :=
  match Chess_move (game a) move with
  | Throws _ => a
  | Returns g =>
      let a := with_game a g in
      let a := with_gameState a (clear_selection (gameState a)) in
      let a := updateUI a in
      if negb (Chess_isGameOver (game a)) then makeAiMove a else a
  end.

Definition startNewGame (a : App) : App :=
  let a := with_game a (Chess_reset (game a)) in
  match newGame (Session.engine (engine a)) with
  | Throws _ => a
  | Returns e =>
      let a := with_engine a (Session.with_engine (engine a) e) in
      let gs := clear_selection (gameState a) in
      let gs := set_isAiThinking gs false in
      let a := with_gameState a gs in
      let a :=
        match playerColor (gameState a) with
        | Black => makeAiMove a
        | White => a
        end in
      updateUI a
  end.

(** The closure assigned to [engine.onBestMove] in [init]. *)
Definition onBestMove_closure (a : App) (moveStr : string) : App :=
  let a := with_gameState a (set_isAiThinking (gameState a) false) in
  let from := substring 0 2 moveStr in
  let to := substring 2 2 moveStr in
  let promotion :=
    if Nat.ltb 4 (String.length moveStr) then Some (substring 4 1 moveStr)
    else None in
  match Chess_move_uci (game a) from to promotion with
  | Returns g => updateUI (with_game a g)
  | Throws _ => a
  end.

Definition engine_failed (a : App) : App :=
  with_elements a (set_status (elements a) "Error loading engine").

(** [init] of main.ts after [await engine.init()] has returned. *)
Definition init_continue (a : App) : App :=
  let post (a : App) (cmd : StockfishCommand number) : outcome App :=
    match postCommand (Session.engine (engine a)) cmd with
    | Returns e => Returns (with_engine a (Session.with_engine (engine a) e))
    | Throws msg => Throws msg
    end in
  match post a (CmdSetoption "Threads" (ValNumber threads)) with
  | Throws _ => engine_failed a
  | Returns a =>
      let hash := Number_mul threads (Number_lit 64) in
      match post a (CmdSetoption "Hash" (ValNumber hash)) with
      | Throws _ => engine_failed a
      | Returns a =>
          let e := set_onBestMove (Session.engine (engine a)) (Some InitOnBestMove) in
          let a := with_engine a (Session.with_engine (engine a) e) in
          updateUI a
      end
  end.

(** The click listener of the two colour buttons.  [confirmed] is the
    answer to the modal, which is only asked when moves have been played;
    the listener is taken at the moment it goes on after the answer. *)
Definition play_as (a : App) (color : Color) (confirmed : bool) : App :=
  if Nat.ltb 0 (List.length (Chess_history (game a))) && negb confirmed then a
  else
    let a := with_gameState a (set_playerColor (gameState a) color) in
    startNewGame a.

Definition undo_click (a : App) : App :=
  if isAiThinking (gameState a) then a
  else
    let g := Chess_undo (game a) in
    let g :=
      if negb (Color_eqb (Chess_turn g) (playerColor (gameState a)))
         && Nat.ltb 0 (List.length (Chess_history g))
      then Chess_undo g else g in
    let a := with_game a g in
    let a := with_gameState a (clear_selection (gameState a)) in
    let a := updateUI a in
    if negb (Color_eqb (Chess_turn (game a)) (playerColor (gameState a)))
       && negb (Chess_isGameOver (game a))
    then makeAiMove a else a.

Definition rotate_click (a : App) : App :=
  let gs := gameState a in
  renderBoard (with_gameState a (set_isBoardRotated gs (negb (isBoardRotated gs)))).

(** Running the [onclick] of a square. *)
Definition run_handler (a : App) (h : Handler) : App :=
  match h with
  | OnHandleMove move => handleMove a move
  | OnHandleSquareClick square => handleSquareClick a square
  end.

(** *** The page over time *)

Inductive Event : Type :=
| Click (i : nat)                      (* on the i-th square of the board *)
| Message (data : string)              (* from the worker *)
| WorkerFailed                         (* the worker's [onerror] *)
| Timeout (now : number)               (* a [setTimeout] of [makeAiMove] is due *)
| ChangeAiMode (value : AiMode)
| InputDifficulty (value : number)     (* [parseInt] of the slider *)
| InputTime (value : number)
| PlayWhite (confirmed : bool)
| PlayBlack (confirmed : bool)
| Undo
| Rotate.

Definition is_pending (s : Session.Session MainCallback) : bool :=
  match Session.promise s with
  | Some Session.Pending => true
  | _ => false
  end.

Definition step (a : App) (ev : Event) : App :=
  match ev with
  | Click i =>
      match array_get (board (elements a)) i with
      | Some el => run_handler a (onclick el)
      | None => a
      end
  | Message data =>
      let (s, reaction) := Session.receive (engine a) data in
      let was_pending := is_pending (engine a) in
      let a := with_engine a s in
      match reaction with
      | Resolve => if was_pending then init_continue a else a
      | BestMove InitOnBestMove move => onBestMove_closure a move
      | Nothing => a
      end
  | WorkerFailed =>
      let was_pending := is_pending (engine a) in
      let a := with_engine a (Session.step (number:=number) (engine a) Session.WorkerError) in
      if was_pending then engine_failed a else a
  | Timeout now =>
      match timeouts a with
      | O => a
      | S n => aiTimeout (with_timeouts a n) now
      end
  | ChangeAiMode value => with_gameState a (set_aiMode (gameState a) value)
  | InputDifficulty value => with_gameState a (set_aiDepth (gameState a) value)
  | InputTime value => with_gameState a (set_aiTime (gameState a) value)
  | PlayWhite confirmed => play_as a White confirmed
  | PlayBlack confirmed => play_as a Black confirmed
  | Undo => undo_click a
  | Rotate => rotate_click a
  end.

Definition run (a : App) (events : list Event) : App := fold_left step events a.

(** The state once the module has been evaluated: the page as served (an
    empty board), [difficulty] and [time] the [parseInt] of the two sliders,
    and [init()] suspended at [await engine.init()]. *)
Definition loaded (difficulty time : number) : App :=
  {| game := new_Chess;
     engine := Session.step (number:=number) Session.fresh Session.CallInit;
     gameState :=
       {| playerColor := White; aiMode := ModeDepth;
          aiDepth := difficulty; aiTime := time;
          selectedSquare := None; possibleMoves := [];
          isAiThinking := false; aiStartTime := Number_lit 0;
          isBoardRotated := false |};
     elements := {| board := []; status := ""; history := [] |};
     timeouts := 0 |}.

End Main.
Arguments GameState : clear implicits.
Arguments App : clear implicits.
Arguments Event : clear implicits.
End Main.

(** ** The 64 squares *)

Module Squares.

Definition files : list ascii :=
  ["a"; "b"; "c"; "d"; "e"; "f"; "g"; "h"]%char.

Definition ranks : list ascii :=
  ["1"; "2"; "3"; "4"; "5"; "6"; "7"; "8"]%char.

(** a1, b1, ..., h1, a2, ..., h8 *)
Definition all_squares : list Square :=
  flat_map (fun rank => map (fun file => String file (String rank EmptyString)) files)
    ranks.

(** The square [renderBoard] names at loop indices [r] and [c]. *)
Definition square_at (flipped : bool) (r c : nat) : Square :=
  let row := if flipped then 7 - r else r in
  let col := if flipped then 7 - c else c in
  Main.fromCharCode (97 + col) ++ Main.String_of_nat (8 - row).

(** Removing the first occurrence of [x], if there is one. *)
Fixpoint remove_first (x : string) (l : list string) : option (list string) :=
  match l with
  | [] => None
  | y :: rest =>
      if String.eqb x y then Some rest
      else option_map (cons y) (remove_first x rest)
  end.

(** A decision procedure for "same elements with the same multiplicities". *)
Fixpoint same_elements (l l' : list string) : bool :=
  match l with
  | [] => match l' with [] => true | _ => false end
  | x :: rest =>
      match remove_first x l' with
      | Some l'' => same_elements rest l''
      | None => false
      end
  end.

Fixpoint distinct (l : list string) : bool :=
  match l with
  | [] => true
  | x :: rest => negb (existsb (String.eqb x) rest) && distinct rest
  end.

End Squares.


(** ** Notions about the page *)

Module Page.
Section Page.
Context {number : Type} `{JsNumber number}.
Context {Game : Type} `{Chess Game}.
Implicit Types (a : Main.App number Game).

(** The messages the page's engine has posted so far. *)
Definition sent a : list string :=
  messages_of (Session.engine (Main.engine a)).

(** The engine of the page has a worker. *)
Definition has_worker a : Prop :=
  exists w, worker (Session.engine (Main.engine a)) = Some w.

(** The [go] command of an AI turn: depth in depth mode, movetime
    otherwise, the number written when it is neither zero nor NaN. *)
Definition go_command (gs : Main.GameState number) : string :=
  match Main.aiMode gs with
  | Main.ModeDepth => "go" ++ go_field_truthy " depth " (Some (Main.aiDepth gs))
  | Main.ModeTime => "go" ++ go_field_truthy " movetime " (Some (Main.aiTime gs))
  end.


(** Every square whose click runs [handleMove] does so with a move of
    [gameState.possibleMoves]. *)
Definition offers_possibleMoves a : Prop :=
  forall el move,
    In el (Main.board (Main.elements a)) ->
    Main.onclick el = Main.OnHandleMove move ->
    In move (Main.possibleMoves (Main.gameState a)).

(** [possibleMoves] is what [game.moves({square, verbose: true})] returned
    for the selected square when the game was [g]. *)
Definition selection_from a (g : Game) : Prop :=
  exists square,
    Main.selectedSquare (Main.gameState a) = Some square /\
    Main.possibleMoves (Main.gameState a) = Chess_moves g square.

Definition selection a : option Square * list Move :=
  (Main.selectedSquare (Main.gameState a), Main.possibleMoves (Main.gameState a)).

(** From [a] to [a'] neither the board nor the selection changed. *)
Definition keeps_view a a' : Prop :=
  Main.board (Main.elements a') = Main.board (Main.elements a) /\
  selection a' = selection a.

(** What a listener can do to the board and the selection: leave both, or
    end with a board drawn from a selection that is the old one, or empty,
    or the answer of [game.moves] for the old game. *)
Definition listener_effect a a' : Prop :=
  keeps_view a a' \/
  (offers_possibleMoves a' /\
   (selection a' = selection a \/
    Main.possibleMoves (Main.gameState a') = [] \/
    selection_from a' (Main.game a))).

End Page.
End Page.

(** ** A small rules library for the examples

    Pawns only, on their starting ranks, moving one square forward onto an
    empty square; the game never ends.  It implements the [Chess] methods
    so that the handlers can be run on concrete clicks. *)

Module PawnPush.

Definition Position : Type := list Move.

Definition turn (g : Position) : Color :=
  if Nat.even (List.length g) then White else Black.

Definition start_piece (sq : Square) : option Piece :=
  match sq with
  | String f (String r EmptyString) =>
      if (Nat.leb 97 (nat_of_ascii f) && Nat.leb (nat_of_ascii f) 104)%bool then
        if Ascii.eqb r "2"%char then Some (mkPiece White Pawn)
        else if Ascii.eqb r "7"%char then Some (mkPiece Black Pawn)
        else None
      else None
  | _ => None
  end.

Fixpoint get (g : Position) (board : Square -> option Piece) (sq : Square)
  : option Piece :=
  match g with
  | [] => board sq
  | m :: rest =>
      get rest
        (fun s => if String.eqb s (move_to m)
                  then Some (mkPiece (move_color m) (move_piece m))
                  else if String.eqb s (move_from m) then None
                  else board s)
        sq
  end.

Definition forward (c : Color) (sq : Square) : option Square :=
  match sq with
  | String f (String r EmptyString) =>
      let n := nat_of_ascii r in
      match c with
      | White => if Nat.ltb n 56 then Some (String f (String (ascii_of_nat (S n)) EmptyString))
                 else None
      | Black => if Nat.ltb 49 n then Some (String f (String (ascii_of_nat (Nat.pred n)) EmptyString))
                 else None
      end
  | _ => None
  end.

Definition moves (g : Position) (sq : Square) : list Move :=
  match get g start_piece sq with
  | Some pc =>
      if Color_eqb (piece_color pc) (turn g) then
        match forward (piece_color pc) sq with
        | Some target =>
            match get g start_piece target with
            | None => [mkMove (piece_color pc) sq target (piece_type pc) None None]
            | Some _ => []
            end
        | None => []
        end
      else []
  | None => []
  end.

Definition move_uci (g : Position) (from to : string) (promotion : option string)
  : outcome Position :=
  match find (fun m => String.eqb (move_to m) to) (moves g from) with
  | Some m => Returns (g ++ [m])%list
  | None => Throws "Invalid move"
  end.

Definition fen (g : Position) : string :=
  String.concat " " (map (fun m => move_from m ++ move_to m) g).

#[export] Instance PawnPush_Chess : Chess Position := {
  new_Chess := [];
  Chess_turn := turn;
  Chess_get := fun g sq => get g start_piece sq;
  Chess_moves := moves;
  Chess_move := fun g m => move_uci g (move_from m) (move_to m) None;
  Chess_move_uci := move_uci;
  Chess_history := fun g => g;
  Chess_undo := fun g => removelast g;
  Chess_reset := fun _ => [];
  Chess_fen := fen;
  Chess_isGameOver := fun _ => false;
  Chess_isCheckmate := fun _ => false;
  Chess_isDraw := fun _ => false;
  Chess_inCheck := fun _ => false
}.

(** The page of the examples: depth 10, 1000 ms, one search thread. *)
Definition page : Main.App IntOrNaN Position := Main.loaded (Int 10) (Int 1000).

Definition run (events : list (Main.Event IntOrNaN)) : Main.App IntOrNaN Position :=
  Main.run (Int 1) page events.

End PawnPush.

(** ** Notions about messages, squares and traffic *)

Module Lines.

(** No character of [s] is a space. *)
Fixpoint no_space (s : string) : bool :=
  match s with
  | EmptyString => true
  | String c rest => negb (Ascii.eqb c " "%char) && no_space rest
  end.

(** The number of spaces of [s]. *)
Fixpoint spaces (s : string) : nat :=
  match s with
  | EmptyString => 0
  | String c rest => (if Ascii.eqb c " "%char then 1 else 0) + spaces rest
  end.

(** What may follow a piece of a line: nothing, or a space and the rest. *)
Definition ends_piece (tail : string) : bool :=
  match tail with
  | EmptyString => true
  | String c _ => Ascii.eqb c " "%char
  end.


End Lines.

Module Scene.
Import Main.

(** The key of [PIECES] for a piece: upper case for White. *)
Definition piece_key (c : Color) (t : PieceSymbol) : string :=
  match c with
  | White => PieceSymbol_upper t
  | Black => PieceSymbol_text t
  end.

Definition piece_class (c : Color) : string :=
  match c with
  | White => "piece-white"
  | Black => "piece-black"
  end.

(** The second word of [className]: "light" or "dark". *)
Definition colour_of (el : SquareElement) : string := nth 1 (classList el) "".

Definition has_class (c : string) (el : SquareElement) : bool :=
  existsb (String.eqb c) (classList el).

(** A light square by its name: h1 is light, a1 is dark. *)
Definition light_square (sq : Square) : bool :=
  match sq with
  | String f (String r EmptyString) => Nat.odd (nat_of_ascii f + nat_of_ascii r)
  | _ => false
  end.

Definition rank_labels (els : list SquareElement) : list string :=
  flat_map (fun el =>
              flat_map (fun ch => match ch with RankLabel t => [t] | _ => [] end)
                (children el)) els.

Definition file_labels (els : list SquareElement) : list string :=
  flat_map (fun el =>
              flat_map (fun ch => match ch with FileLabel t => [t] | _ => [] end)
                (children el)) els.

(** The piece spans of a square, as (text, class). *)
Definition piece_spans (el : SquareElement) : list (option string * string) :=
  flat_map (fun ch => match ch with PieceSpan t c => [(t, c)] | _ => [] end)
    (children el).

(** A square's click concerns that very square: it plays a move that ends
    there, or it is [handleSquareClick] of the square. *)
Definition wired (el : SquareElement) : Prop :=
  match onclick el with
  | OnHandleMove move => move_to move = dataset_square el
  | OnHandleSquareClick square => square = dataset_square el
  end.

(** a8, b8, ..., h8, a7, ..., h1: the board as White sees it, row by row. *)
Definition from_white : list Square :=
  flat_map (fun rank => map (fun file => String file (String rank EmptyString))
                          Squares.files)
    (rev Squares.ranks).

End Scene.

Module Traffic.
Section Traffic.
Context {number : Type} `{JsNumber number}.
Context {Game : Type} `{Chess Game}.
Variable threads : number.

Definition is_setoption (message : string) : bool := startsWith message "setoption".

(** The two commands [init] of main.ts posts once the engine has answered. *)
Definition options : list string :=
  ["setoption name Threads value " ++ Number_toString threads;
   "setoption name Hash value "
   ++ Number_toString (Number_mul threads (Number_lit 64))].

Definition is_fulfilled (s : Session.Session Main.MainCallback) : bool :=
  match Session.promise s with
  | Some Session.Fulfilled => true
  | _ => false
  end.

(** What an event of the page makes the engine post. *)
Definition posted_by (a : Main.App number Game) (ev : Main.Event number)
  : list string :=
  match ev with
  | Main.Message data =>
      if Main.is_pending (Main.engine a) && String.eqb data "readyok"
      then options else []
  | Main.Timeout _ =>
      match Main.timeouts a with
      | O => []
      | S _ => ["position fen " ++ Chess_fen (Main.game a);
                Page.go_command (Main.gameState a)]
      end
  | Main.PlayWhite confirmed | Main.PlayBlack confirmed =>
      if Nat.ltb 0 (List.length (Chess_history (Main.game a))) && negb confirmed
      then [] else ["ucinewgame"]
  | _ => []
  end.

(** The board is what [renderBoard] would draw now, or was never drawn. *)
Definition board_current (a : Main.App number Game) : Prop :=
  Main.board (Main.elements a) = [] \/
  Main.board (Main.elements a) = Main.renderBoard_fragment a.

(** The move list is what [renderHistory] would draw now, or was never
    drawn. *)
Definition history_current (a : Main.App number Game) : Prop :=
  Main.history (Main.elements a) = [] \/
  Main.history (Main.elements a)
  = Main.mapi_from Main.renderHistory_entry 0 (Chess_history (Main.game a)).

(** From [a] to [a'] the board and what it is drawn from stayed, or the
    board was drawn again; and the same for the move list. *)
Definition redraws (a a' : Main.App number Game) : Prop :=
  ((Main.board (Main.elements a') = Main.board (Main.elements a) /\
    Main.renderBoard_fragment a' = Main.renderBoard_fragment a) \/
   Main.board (Main.elements a') = Main.renderBoard_fragment a') /\
  ((Main.history (Main.elements a') = Main.history (Main.elements a) /\
    Chess_history (Main.game a') = Chess_history (Main.game a)) \/
   Main.history (Main.elements a')
   = Main.mapi_from Main.renderHistory_entry 0 (Chess_history (Main.game a'))).

(** While the AI is thinking nothing is selected, and without a selected
    square there are no possible moves. *)
Definition selection_sound (a : Main.App number Game) : Prop :=
  (Main.isAiThinking (Main.gameState a) = true ->
   Main.selectedSquare (Main.gameState a) = None) /\
  (Main.selectedSquare (Main.gameState a) = None ->
   Main.possibleMoves (Main.gameState a) = []).

(** The event is the worker saying 'readyok'. *)
Definition is_readyok (ev : Main.Event number) : bool :=
  match ev with
  | Main.Message data => String.eqb data "readyok"
  | _ => false
  end.

(** The engine options and the callback go with the promise of [init()]. *)
Definition configured (a : Main.App number Game) : Prop :=
  filter is_setoption (Page.sent a)
  = (if is_fulfilled (Main.engine a) then options else []) /\
  onBestMove (Session.engine (Main.engine a))
  = (if is_fulfilled (Main.engine a) then Some Main.InitOnBestMove else None).

End Traffic.
End Traffic.

(** ** More inputs of the examples *)

Module MoreInputs.
Import Main.

(** The engine answers and plays e7e6 after the player's e2e3. *)
Definition reply_played : list (Event IntOrNaN) :=
  [Message "readyok"; Click 52; Click 44; Timeout (Int 5);
   Message "bestmove e7e6 ponder d2d3"].

Definition e7e6 : Move := mkMove Black "e7" "e6" Pawn None None.

(** The square e2 while it is selected. *)
Definition e2_selected_square : SquareElement :=
  {| classList := ["square"; "light"; "selected"];
     dataset_square := "e2";
     children := [PieceSpan (Some "♙") "piece-white"];
     onclick := OnHandleSquareClick "e2" |}.

(** An engine session right after [init()]. *)
Definition started : Session.Session unit :=
  Session.step (number:=IntOrNaN) Session.fresh Session.CallInit.

End MoreInputs.

(** ** Inputs of the examples *)

Module Inputs.
Import Main.

(** An engine right after [init()], with a callback of type [unit]. *)
Definition ready : ChessEngine unit :=
  set_onBestMove (init new_ChessEngine) (Some tt).

Definition ready_worker : StockfishWorker := mkWorker ["uci"; "isready"].

Definition e2e3 : Move := mkMove White "e2" "e3" Pawn None None.

(** The square e3 once e2 is selected. *)
Definition e3_offered : SquareElement :=
  {| classList := ["square"; "dark"; "possible-move"];
     dataset_square := "e3";
     children := [];
     onclick := OnHandleMove e2e3 |}.

(** The engine answers, the player selects e2 (square 52 of the board). *)
Definition e2_selected : list (Event IntOrNaN) := [Message "readyok"; Click 52].

(** ... and then plays to e3 (square 44). *)
Definition e2e3_played : list (Event IntOrNaN) :=
  [Message "readyok"; Click 52; Click 44].


(** "Play as Black" before the engine has answered, then the timeout of
    [makeAiMove]. *)
Definition black_before_readyok : list (Event IntOrNaN) :=
  [PlayBlack false; Timeout (Int 5)].

End Inputs.

(** * Properties of the engine wrapper *)

Lemma string_app_assoc (a b c : string) : (a ++ b) ++ c = a ++ (b ++ c).
Proof.
  induction a as [|ch a IH]; simpl; [reflexivity | now rewrite IH].
Qed.

Lemma string_app_empty_r (a : string) : a ++ "" = a.
Proof.
  induction a as [|ch a IH]; simpl; [reflexivity | now rewrite IH].
Qed.

Section EngineFacts.
Context {number : Type} `{JsNumber number}.
Context {Callback : Type}.
Implicit Types (e : ChessEngine Callback) (cmd : StockfishCommand number).
Implicit Types (w : StockfishWorker).

Lemma postCommand_with_worker e w cmd :
  worker e = Some w ->
  postCommand e cmd =
    match command_message cmd with
    | Some message => Returns (set_worker e (postMessage w message))
    | None => Returns e
    end.
Proof.
  intros Hw. unfold postCommand. now rewrite Hw.
Qed.

Lemma postCommand_without_worker e cmd :
  worker e = None -> postCommand e cmd = Throws "Engine not initialized".
Proof.
  intros Hw. unfold postCommand. now rewrite Hw.
Qed.

Lemma messages_of_posted e w message :
  worker e = Some w ->
  messages_of (set_worker e (postMessage w message))
  = (messages_of e ++ [message])%list.
Proof.
  intros Hw. unfold messages_of. simpl. now rewrite Hw.
Qed.

Lemma go_message_closed_form (d m : option number) :
  go_message d m
  = "go" ++ go_field_truthy " depth " d ++ go_field_truthy " movetime " m.
Proof.
  unfold go_message, go_field_truthy.
  destruct d as [d|], m as [m|];
    try destruct (Number_truthy d); try destruct (Number_truthy m);
    rewrite ?string_app_assoc, ?string_app_empty_r; reflexivity.
Qed.




(** C2: on an initialized engine, [setPosition f] is
    [postCommand {cmd: 'position', fen: f}], returns, and adds to the
    worker's messages exactly ["position fen " ++ f]; the callback is
    untouched. *)
Theorem setPosition_posts_position_fen e w (f : string) :
  worker e = Some w ->
  setPosition e f = postCommand e (CmdPosition f) /\
  exists e',
    setPosition e f = Returns e' /\
    messages_of e' = List.app (messages_of e) ["position fen " ++ f] /\
    onBestMove e' = onBestMove e.
Proof.
  intros Hw. split; [reflexivity|].
  exists (set_worker e (postMessage w ("position fen " ++ f))).
  unfold setPosition. rewrite (postCommand_with_worker e w _ Hw). simpl.
  repeat split. now apply messages_of_posted.
Qed.

(** C3 (as amended): on an initialized engine, [search options] returns and
    adds exactly one message: "go", then " depth N" exactly when a depth N is
    supplied and is neither zero nor NaN, then " movetime M" exactly when a
    movetime M is supplied and is neither zero nor NaN. *)
Theorem search_posts_go e w (options : SearchOptions number) :
  worker e = Some w ->
  exists e',
    search e options = Returns e' /\
    messages_of e' =
      List.app (messages_of e)
        ["go" ++ go_field_truthy " depth " (depth options)
              ++ go_field_truthy " movetime " (movetime options)].
Proof.
  intros Hw. unfold search.
  rewrite (postCommand_with_worker e w _ Hw). simpl.
  eexists. split; [reflexivity|].
  rewrite (messages_of_posted e w _ Hw).
  now rewrite go_message_closed_form.
Qed.

Lemma startsWith_bestmove_not_readyok (data : string) :
  startsWith data "bestmove" = true -> String.eqb data "readyok" = false.
Proof.
  intros Hp. apply String.eqb_neq. intros ->. discriminate Hp.
Qed.

Lemma String_truthy_iff (s : string) : String_truthy s = true <-> s <> "".
Proof.
  destruct s; simpl; split; congruence.
Qed.

(** C4 (as amended): the [onmessage] closure calls the callback [cb] with
    [move] if and only if the message starts with "bestmove", [move] is the
    second element of the message split at single spaces, [move] is not
    empty and not "(none)", and [cb] is the callback that is set. *)
Theorem onmessage_calls_onBestMove_iff e (data : string) (cb : Callback) (move : string) :
  onmessage e data = BestMove cb move <->
  (startsWith data "bestmove" = true /\
   array_get (split_space data) 1 = Some move /\
   move <> "" /\ move <> "(none)" /\
   onBestMove e = Some cb).
Proof.
  unfold onmessage. split.
  - destruct (String.eqb data "readyok"); [discriminate|].
    destruct (startsWith data "bestmove"); [|discriminate].
    destruct (onBestMove e) as [cb'|]; [|discriminate].
    destruct (array_get (split_space data) 1) as [mv|]; [|discriminate].
    destruct (String_truthy mv) eqn:Ht; [|discriminate].
    destruct (String.eqb mv "(none)") eqn:Hn; [discriminate|].
    simpl. intros E. inversion E; subst.
    repeat split.
    + now apply String_truthy_iff.
    + now apply String.eqb_neq.
  - intros (Hp & Hm & Hne & Hnone & Hcb).
    rewrite (startsWith_bestmove_not_readyok data Hp), Hp, Hcb, Hm.
    apply String_truthy_iff in Hne. apply String.eqb_neq in Hnone.
    now rewrite Hne, Hnone.
Qed.

Lemma after_keeps_worker (s : Session.Session Callback) w cmd :
  worker (Session.engine s) = Some w ->
  exists w',
    worker (Session.engine (Session.after s (postCommand (Session.engine s) cmd)))
    = Some w'.
Proof.
  intros Hw. rewrite (postCommand_with_worker _ w cmd Hw).
  destruct (command_message cmd); simpl; eauto.
Qed.

Lemma step_keeps_worker (s : Session.Session Callback)
  (op : Session.Op number Callback) :
  (exists w, worker (Session.engine s) = Some w) ->
  exists w, worker (Session.engine (Session.step s op)) = Some w.
Proof.
  intros [w Hw].
  destruct op as [|c|o| |fen|cb|data|]; simpl; eauto.
  - now apply after_keeps_worker with w.
  - now apply after_keeps_worker with w.
  - now apply after_keeps_worker with w.
  - now apply after_keeps_worker with w.
  - unfold Session.receive. rewrite Hw. simpl. eauto.
Qed.

Lemma run_keeps_worker (ops : list (Session.Op number Callback)) :
  forall s : Session.Session Callback,
    (exists w, worker (Session.engine s) = Some w) ->
    exists w, worker (Session.engine (Session.run s ops)) = Some w.
Proof.
  induction ops as [|op ops IH]; intros s Hs; simpl; [exact Hs|].
  apply IH. now apply step_keeps_worker.
Qed.

Lemma worker_after_init (before later : list (Session.Op number Callback)) :
  exists w,
    worker (Session.engine
              (Session.run (Callback:=Callback) Session.fresh
                 (before ++ Session.CallInit :: later))) = Some w.
Proof.
  unfold Session.run. rewrite fold_left_app. simpl.
  apply run_keeps_worker. simpl. now eexists.
Qed.

(** C8: [postCommand] throws exactly when there is no worker, and then with
    the message 'Engine not initialized' and without any effect; from the
    first [init()] on it always returns. *)
Theorem postCommand_throws_iff_uninitialized :
  (forall e cmd msg,
      postCommand e cmd = Throws msg <->
      worker e = None /\ msg = "Engine not initialized") /\
  (forall (s : Session.Session Callback) cmd,
      worker (Session.engine s) = None ->
      Session.step s (Session.CallPostCommand cmd) = s) /\
  (forall (before later : list (Session.Op number Callback)) cmd,
      exists e',
        postCommand
          (Session.engine
             (Session.run Session.fresh (before ++ Session.CallInit :: later)))
          cmd = Returns e').
Proof.
  split; [|split].
  - intros e cmd msg. unfold postCommand.
    destruct (worker e) as [w|].
    + destruct (command_message cmd); split; try discriminate; now intros [? _].
    + split.
      * intros E. inversion E. now split.
      * now intros [_ ->].
  - intros s cmd Hw. simpl. now rewrite (postCommand_without_worker _ cmd Hw).
  - intros before later cmd.
    destruct (worker_after_init before later) as [w Hw].
    rewrite (postCommand_with_worker _ w cmd Hw).
    destruct (command_message cmd); now eexists.
Qed.

(** *** The handshake of [init()] *)

Lemma handshaken_fresh : Session.handshaken (Callback:=Callback) Session.fresh.
Proof.
  repeat split; simpl; try easy.
Qed.

Lemma handshaken_after (s : Session.Session Callback) cmd :
  Session.handshaken s ->
  Session.handshaken (Session.after s (postCommand (Session.engine s) cmd)).
Proof.
  intros Hs. unfold postCommand.
  destruct (worker (Session.engine s)) as [w|] eqn:E; simpl; [|exact Hs].
  destruct (command_message cmd) as [message|]; simpl; [|exact Hs].
  destruct Hs as (Hi & Hp & Hw).
  repeat split; [easy | exact Hp |].
  intros w' Hw'. inversion Hw'; subst; clear Hw'.
  destruct (Hw w E) as [rest Hrest]. simpl. rewrite Hrest.
  now exists (rest ++ [message])%list.
Qed.

Lemma onmessage_resolve e (data : string) :
  onmessage e data = Resolve -> data = "readyok".
Proof.
  unfold onmessage.
  destruct (String.eqb_spec data "readyok") as [E|_]; [now intros _|].
  destruct (startsWith data "bestmove"); [|discriminate].
  destruct (onBestMove e), (array_get (split_space data) 1); try discriminate.
  now destruct (String_truthy s && negb (String.eqb s "(none)")).
Qed.

Lemma handshaken_step (s : Session.Session Callback)
  (op : Session.Op number Callback) :
  Session.handshaken s -> Session.handshaken (Session.step s op).
Proof.
  intros Hs.
  destruct op as [|c|o| |fen|cb|data|]; simpl;
    try (now apply handshaken_after).
  - repeat split; simpl; try easy.
    intros w Hw. inversion Hw. now exists [].
  - exact Hs.
  - unfold Session.receive.
    destruct (worker (Session.engine s)) as [w|] eqn:E; simpl; [|exact Hs].
    destruct Hs as (Hi & Hp & Hw).
    repeat split; simpl; [now rewrite E | | exact Hw].
    intros Hf. apply in_or_app.
    destruct (onmessage (Session.engine s) data) eqn:R.
    + right. left. now apply onmessage_resolve with (Session.engine s).
    + left. now apply Hp.
    + left. now apply Hp.
  - destruct Hs as (Hi & Hp & Hw). repeat split; simpl; [| |exact Hw].
    + intros Hn. apply Hi. now destruct (Session.promise s).
    + intros Hf. apply Hp.
      destruct (Session.promise s) as [[| |]|]; simpl in Hf; congruence.
Qed.

Lemma handshaken_run (ops : list (Session.Op number Callback)) :
  forall s : Session.Session Callback,
    Session.handshaken s -> Session.handshaken (Session.run s ops).
Proof.
  induction ops as [|op ops IH]; intros s Hs; simpl; [exact Hs|].
  apply IH. now apply handshaken_step.
Qed.

Lemma quiet_run_keeps_messages (ops : list (Session.Op number Callback)) :
  forall s : Session.Session Callback,
    forallb (fun op => negb (Session.posts op)) ops = true ->
    messages_of (Session.engine s) = ["uci"; "isready"] ->
    messages_of (Session.engine (Session.run s ops)) = ["uci"; "isready"].
Proof.
  induction ops as [|op ops IH]; intros s Hq Hs; simpl; [exact Hs|].
  simpl in Hq. apply andb_prop in Hq. destruct Hq as [Hop Hq].
  apply IH; [exact Hq|].
  destruct op as [|c|o| |fen|cb|data|]; simpl in Hop |- *;
    try discriminate; trivial.
  unfold Session.receive.
  now destruct (worker (Session.engine s)).
Qed.

(** C10 (as amended): [init()] posts exactly 'uci' then 'isready' and leaves
    its promise pending, and as long as no caller posts a command these stay
    the only messages; over any use of the engine, the promise is fulfilled
    only once the worker has emitted 'readyok', and the messages of a worker
    always begin with 'uci', 'isready', so nothing is sent before them. *)
Theorem init_handshake :
  (forall s : Session.Session Callback,
      let s' := Session.step (number:=number) s Session.CallInit in
      messages_of (Session.engine s') = ["uci"; "isready"] /\
      Session.promise s' = Some Session.Pending) /\
  (forall (s : Session.Session Callback) (ops : list (Session.Op number Callback)),
      forallb (fun op => negb (Session.posts op)) ops = true ->
      messages_of
        (Session.engine (Session.run (Session.step s Session.CallInit) ops))
      = ["uci"; "isready"]) /\
  (forall ops : list (Session.Op number Callback),
      let s := Session.run Session.fresh ops in
      (Session.promise s = Some Session.Fulfilled ->
       In "readyok" (Session.emitted s) /\
       exists rest, messages_of (Session.engine s) = "uci" :: "isready" :: rest) /\
      (forall w, worker (Session.engine s) = Some w ->
                 exists rest, posted w = "uci" :: "isready" :: rest)).
Proof.
  split; [|split].
  - intros s. now split.
  - intros s ops Hq. now apply quiet_run_keeps_messages.
  - intros ops s.
    destruct (handshaken_run ops Session.fresh handshaken_fresh) as (Hi & Hp & Hw).
    fold s in Hi, Hp, Hw. split; [|exact Hw].
    intros Hf. split; [now apply Hp|].
    unfold messages_of.
    destruct (worker (Session.engine s)) as [w|] eqn:E.
    + now apply Hw.
    + exfalso. apply Hi; [congruence | reflexivity].
Qed.

End EngineFacts.

(** *** The engine on concrete inputs *)

Module EngineExamples.
Import Inputs.




Lemma setPosition_posts_position_fen_witness :
  let f := "8/8/8/8/8/8/8/8 w - - 0 1" in
  worker ready = Some ready_worker /\
  (setPosition ready f = postCommand (number:=IntOrNaN) ready (CmdPosition f) /\
   exists e',
     setPosition (number:=IntOrNaN) ready f = Returns e' /\
     messages_of e' = List.app (messages_of ready) ["position fen " ++ f] /\
     onBestMove e' = onBestMove ready).
Proof.
  split; [reflexivity|].
  apply (setPosition_posts_position_fen (number:=IntOrNaN) ready ready_worker).
  reflexivity.
Defined.

(** C3 (counterexample): a supplied depth of 0 is not written: the message
    is "go", not "go depth 0". *)
Lemma search_depth_zero_posts_bare_go :
  let options := {| depth := Some (Int 0); movetime := None |} in
  let described :=
    "go" ++ go_field " depth " (depth options)
         ++ go_field " movetime " (movetime options) in
  exists e',
    search ready options = Returns e' /\
    messages_of e' = ["uci"; "isready"; "go"] /\
    described = "go depth 0" /\
    messages_of e' <> List.app (messages_of ready) [described].
Proof.
  eexists. repeat split. discriminate.
Qed.

Lemma search_posts_go_witness :
  let options := {| depth := Some (Int 12); movetime := Some (Int 0) |} in
  worker ready = Some ready_worker /\
  exists e',
    search ready options = Returns e' /\
    messages_of e' =
      List.app (messages_of ready)
        ["go" ++ go_field_truthy " depth " (depth options)
              ++ go_field_truthy " movetime " (movetime options)].
Proof.
  split; [reflexivity|].
  apply (search_posts_go ready ready_worker). reflexivity.
Defined.

(** C4 (counterexample): "bestmove  e2e4" starts with "bestmove", has a
    second piece, which is not "(none)", and the callback is set, yet the
    callback is not called: the second piece is the empty string. *)
Lemma bestmove_two_spaces_not_delivered :
  let data := "bestmove  e2e4" in
  startsWith data "bestmove" = true /\
  (exists token, array_get (split_space data) 1 = Some token /\ token <> "(none)") /\
  onBestMove ready <> None /\
  onmessage ready data = Nothing.
Proof.
  repeat split; try easy. exists "". split; [reflexivity | discriminate].
Qed.

Lemma onmessage_calls_onBestMove_iff_witness :
  let data := "bestmove d7d5 ponder c2c4" in
  (startsWith data "bestmove" = true /\
   array_get (split_space data) 1 = Some "d7d5" /\
   "d7d5" <> "" /\ "d7d5" <> "(none)" /\
   onBestMove ready = Some tt) /\
  onmessage ready data = BestMove tt "d7d5".
Proof.
  assert (Hparse : startsWith "bestmove d7d5 ponder c2c4" "bestmove" = true /\
                   array_get (split_space "bestmove d7d5 ponder c2c4") 1
                   = Some "d7d5" /\
                   "d7d5" <> "" /\ "d7d5" <> "(none)" /\
                   onBestMove ready = Some tt)
    by (repeat split; discriminate).
  split; [exact Hparse|].
  apply (proj2 (onmessage_calls_onBestMove_iff ready _ tt "d7d5")).
  exact Hparse.
Defined.

Lemma postCommand_throws_iff_uninitialized_witness :
  let s := Session.fresh (Callback:=unit) in
  worker (Session.engine s) = None /\
  Session.step (number:=IntOrNaN) s (Session.CallPostCommand (CmdLiteral uci)) = s.
Proof.
  split; [reflexivity|].
  apply (proj1 (proj2 (postCommand_throws_iff_uninitialized
                         (number:=IntOrNaN) (Callback:=unit)))).
  reflexivity.
Defined.

Lemma init_handshake_witness :
  let ops : list (Session.Op IntOrNaN unit) :=
    [Session.CallInit; Session.WorkerMessage "uciok";
     Session.CallSetPosition "startpos"; Session.WorkerMessage "readyok"] in
  let s := Session.run Session.fresh ops in
  Session.promise s = Some Session.Fulfilled /\
  In "readyok" (Session.emitted s) /\
  exists rest, messages_of (Session.engine s) = "uci" :: "isready" :: rest.
Proof.
  split; [reflexivity|].
  apply (proj1 (proj2 (proj2 (init_handshake (number:=IntOrNaN) (Callback:=unit))) _)).
  reflexivity.
Defined.

End EngineExamples.

(** * Properties of the page *)

Lemma remove_first_Permutation (x : string) (l l' : list string) :
  Squares.remove_first x l = Some l' -> Permutation l (x :: l').
Proof.
  revert l'. induction l as [|y rest IH]; simpl; intros l' E; [discriminate|].
  destruct (String.eqb_spec x y) as [->|_].
  - inversion E. reflexivity.
  - destruct (Squares.remove_first x rest) as [r|]; [|discriminate].
    inversion E; subst. rewrite (IH r eq_refl). apply perm_swap.
Qed.

Lemma same_elements_Permutation (l l' : list string) :
  Squares.same_elements l l' = true -> Permutation l l'.
Proof.
  revert l'. induction l as [|x rest IH]; simpl; intros l' E.
  - destruct l'; [constructor | discriminate].
  - destruct (Squares.remove_first x l') as [l''|] eqn:R; [|discriminate].
    apply remove_first_Permutation in R. rewrite R.
    constructor. now apply IH.
Qed.

Lemma distinct_NoDup (l : list string) : Squares.distinct l = true -> NoDup l.
Proof.
  induction l as [|x rest IH]; simpl; intros E; [constructor|].
  apply andb_prop in E. destruct E as [Hx Hrest].
  constructor; [|now apply IH].
  intros Hin. apply negb_true_iff in Hx.
  assert (existsb (String.eqb x) rest = true); [|congruence].
  apply existsb_exists. exists x. split; [exact Hin | apply String.eqb_refl].
Qed.

Lemma map_flat_map {A B C} (f : B -> C) (g : A -> list B) (l : list A) :
  map f (flat_map g l) = flat_map (fun x => map f (g x)) l.
Proof.
  induction l as [|x l IH]; simpl; [reflexivity|].
  now rewrite map_app, IH.
Qed.

Section MainFacts.
Context {number : Type} `{JsNumber number}.
Context {Game : Type} `{Chess Game}.
Variable threads : number.
Implicit Types (a : Main.App number Game) (ev : Main.Event number).

Import Main.

(** *** renderBoard *)

Lemma dataset_square_cell a (r c : nat) :
  dataset_square (renderBoard_cell a r c)
  = Squares.square_at (isFlipped (gameState a)) r c.
Proof. reflexivity. Qed.

Lemma squares_of_fragment a :
  map dataset_square (renderBoard_fragment a)
  = flat_map (fun r => map (Squares.square_at (isFlipped (gameState a)) r) (seq 0 8))
      (seq 0 8).
Proof.
  unfold renderBoard_fragment. rewrite map_flat_map.
  apply flat_map_ext. intros r. rewrite map_map. reflexivity.
Qed.

Lemma length_fragment a : List.length (renderBoard_fragment a) = 64.
Proof. reflexivity. Qed.

(** C6: [renderBoard] runs 8 rows of 8 columns, makes one element per cell,
    and the board then holds exactly these 64 elements, whatever it held
    before; their squares are a1 to h8, each once. *)
Theorem renderBoard_64_cells a :
  let cells := board (elements (renderBoard a)) in
  cells = flat_map (fun r => map (fun c => renderBoard_cell a r c) (seq 0 8)) (seq 0 8) /\
  (forall before : list SquareElement,
      board (elements (renderBoard (with_elements a (set_board (elements a) before))))
      = cells) /\
  List.length cells = 64 /\
  Permutation (map dataset_square cells) Squares.all_squares /\
  NoDup (map dataset_square cells) /\
  NoDup Squares.all_squares /\
  List.length Squares.all_squares = 64.
Proof.
  assert (Hall : NoDup Squares.all_squares)
    by (apply distinct_NoDup; vm_compute; reflexivity).
  assert (Hperm : Permutation (map dataset_square (renderBoard_fragment a))
                    Squares.all_squares).
  { rewrite squares_of_fragment. apply same_elements_Permutation.
    destruct (isFlipped (gameState a)); vm_compute; reflexivity. }
  change (board (elements (renderBoard a))) with (renderBoard_fragment a).
  cbv zeta.
  split; [reflexivity|].
  split; [reflexivity|].
  split; [apply length_fragment|].
  split; [exact Hperm|].
  split; [|split; [exact Hall | reflexivity]].
  apply Permutation_NoDup with Squares.all_squares; [symmetry|]; assumption.
Qed.

(** *** handleSquareClick *)

Lemma Color_eqb_eq (x y : Color) : Color_eqb x y = true <-> x = y.
Proof.
  destruct x, y; simpl; split; congruence.
Qed.

Lemma set_selection_same (gs : GameState number) :
  set_selection gs (selectedSquare gs) (possibleMoves gs) = gs.
Proof. now destruct gs. Qed.

Lemma handleSquareClick_guarded a (square : Square) :
  isAiThinking (gameState a) = true \/
  Chess_isGameOver (game a) = true \/
  Chess_turn (game a) <> playerColor (gameState a) ->
  handleSquareClick a square = a.
Proof.
  intros Hguard. unfold handleSquareClick.
  destruct (isAiThinking (gameState a)); [reflexivity|].
  destruct (Chess_isGameOver (game a)); [reflexivity|]. simpl.
  destruct (Color_eqb (Chess_turn (game a)) (playerColor (gameState a))) eqn:Hturn;
    [|reflexivity].
  apply Color_eqb_eq in Hturn.
  destruct Hguard as [E|[E|E]]; [discriminate | discriminate | contradiction].
Qed.

(** [handleSquareClick], with the selection it makes. *)
Lemma handleSquareClick_selects a (square : Square) :
  handleSquareClick a square = a \/
  handleSquareClick a square
  = renderBoard (with_gameState a (clear_selection (gameState a))) \/
  handleSquareClick a square
  = renderBoard (with_gameState a
                   (set_selection (gameState a) (Some square)
                      (Chess_moves (game a) square))).
Proof.
  unfold handleSquareClick.
  destruct (isAiThinking (gameState a) || Chess_isGameOver (game a)); [now left|].
  destruct (negb (Color_eqb (Chess_turn (game a)) (playerColor (gameState a))));
    [now left|].
  destruct (match Chess_get (game a) square with
            | Some pc => Color_eqb (piece_color pc) (playerColor (gameState a))
            | None => false
            end).
  - right.
    destruct (match selectedSquare (gameState a) with
              | Some s => String.eqb s square
              | None => false
              end); [now left | now right].
  - destruct (selectedSquare (gameState a)) as [s|]; [|now left].
    destruct (String_truthy s); [|now left].
    right. now left.
Qed.

(** C9: [handleSquareClick] leaves the game (its position, history and
    turn), the engine and the pending timeouts as they were; of [gameState]
    it can only change [selectedSquare] and [possibleMoves]; of the page it
    can only redraw the board from that state; and when the AI is thinking,
    the game is over or it is not the player's turn, nothing changes. *)
Theorem handleSquareClick_frame a (square : Square) :
  let a' := handleSquareClick a square in
  (game a' = game a /\
   Chess_fen (game a') = Chess_fen (game a) /\
   Chess_history (game a') = Chess_history (game a) /\
   Chess_turn (game a') = Chess_turn (game a)) /\
  engine a' = engine a /\
  timeouts a' = timeouts a /\
  gameState a' =
    set_selection (gameState a)
      (selectedSquare (gameState a')) (possibleMoves (gameState a')) /\
  (elements a' = elements a \/
   elements a' = set_board (elements a) (renderBoard_fragment a')) /\
  (isAiThinking (gameState a) = true \/
   Chess_isGameOver (game a) = true \/
   Chess_turn (game a) <> playerColor (gameState a) ->
   a' = a).
Proof.
  cbv zeta.
  split; [|split; [|split; [|split; [|split]]]];
    try apply handleSquareClick_guarded;
    destruct (handleSquareClick_selects a square) as [->|[->| ->]];
    try (now repeat split);
    try (now rewrite set_selection_same);
    try (now left);
    now right.
Qed.

(** *** The engine of the page *)

Lemma post_keeps_worker (s : Session.Session MainCallback)
  (cmd : StockfishCommand number) :
  (exists w, worker (Session.engine s) = Some w) ->
  exists e w',
    postCommand (Session.engine s) cmd = Returns e /\ worker e = Some w'.
Proof.
  intros [w Hw]. rewrite (postCommand_with_worker _ w cmd Hw).
  destruct (command_message cmd); do 2 eexists; (split; [reflexivity|]);
    [reflexivity | exact Hw].
Qed.

Lemma handleSquareClick_engine a (square : Square) :
  engine (handleSquareClick a square) = engine a.
Proof.
  now destruct (handleSquareClick_selects a square) as [->|[->| ->]].
Qed.

Lemma handleMove_engine a (move : Move) : engine (handleMove a move) = engine a.
Proof.
  unfold handleMove. destruct (Chess_move (game a) move) as [g|]; [|reflexivity].
  cbv zeta. now destruct (negb _).
Qed.

Lemma onBestMove_closure_engine a (moveStr : string) :
  engine (onBestMove_closure a moveStr) = engine a.
Proof.
  unfold onBestMove_closure. cbv zeta.
  now destruct (Chess_move_uci _ _ _ _).
Qed.

Lemma undo_click_engine a : engine (undo_click a) = engine a.
Proof.
  unfold undo_click. destruct (isAiThinking (gameState a)); [reflexivity|].
  cbv zeta. now destruct (negb _ && negb _).
Qed.

Lemma aiTimeout_has_worker a (now : number) :
  Page.has_worker a -> Page.has_worker (aiTimeout a now).
Proof.
  intros Hw. unfold aiTimeout, setPosition, search.
  destruct (post_keeps_worker (engine a) (CmdPosition (Chess_fen (game a))) Hw)
    as (e & w' & -> & Hw').
  cbv zeta.
  match goal with
  | |- Page.has_worker (with_engine _ (Session.after ?s (postCommand _ ?cmd))) =>
      destruct (post_keeps_worker s cmd) as (e2 & w2 & E2 & Hw2);
        [now exists w' | rewrite E2; now exists w2]
  end.
Qed.

Lemma startNewGame_has_worker a : Page.has_worker a -> Page.has_worker (startNewGame a).
Proof.
  intros Hw. unfold startNewGame, newGame. cbv zeta.
  destruct (post_keeps_worker (engine a) (CmdLiteral ucinewgame) Hw)
    as (e & w' & E & Hw').
  change (engine (with_game a (Chess_reset (game a)))) with (engine a).
  rewrite E. exists w'.
  now destruct (playerColor _).
Qed.

Lemma init_continue_has_worker a : Page.has_worker a -> Page.has_worker (init_continue threads a).
Proof.
  intros Hw. unfold init_continue.
  destruct (post_keeps_worker (engine a)
              (CmdSetoption "Threads" (ValNumber threads)) Hw)
    as (e & w' & -> & Hw').
  match goal with
  | |- Page.has_worker (match (match postCommand ?e0 ?cmd with _ => _ end) with _ => _ end) =>
      destruct (post_keeps_worker
                  (Session.with_engine (engine a) e) cmd) as (e2 & w2 & E2 & Hw2);
        [now exists w' | ]
  end.
  simpl in E2 |- *. rewrite E2. now exists w2.
Qed.

Lemma step_has_worker a ev : Page.has_worker a -> Page.has_worker (step threads a ev).
Proof.
  intros Hw. destruct ev as [i|data| |now|v|v|v|c|c| |]; simpl; trivial.
  - destruct (array_get (board (elements a)) i) as [el|]; [|exact Hw].
    unfold Page.has_worker. destruct (onclick el); simpl.
    + now rewrite handleMove_engine.
    + now rewrite handleSquareClick_engine.
  - destruct Hw as [w Hw]. unfold Session.receive. rewrite Hw.
    destruct (onmessage (Session.engine (engine a)) data) as [|[] move|].
    + destruct (is_pending (engine a)); [apply init_continue_has_worker|];
        now exists w.
    + unfold Page.has_worker. rewrite onBestMove_closure_engine. now exists w.
    + now exists w.
  - destruct (is_pending (engine a)); exact Hw.
  - destruct (timeouts a); [exact Hw|]. now apply aiTimeout_has_worker.
  - unfold play_as. destruct (_ && _); [exact Hw|].
    now apply startNewGame_has_worker.
  - unfold play_as. destruct (_ && _); [exact Hw|].
    now apply startNewGame_has_worker.
  - unfold Page.has_worker. now rewrite undo_click_engine.
Qed.

Lemma run_has_worker (events : list (Event number)) :
  forall a, Page.has_worker a -> Page.has_worker (run threads a events).
Proof.
  induction events as [|ev events IH]; intros a Hw; simpl; [exact Hw|].
  apply IH. now apply step_has_worker.
Qed.

Lemma loaded_has_worker (difficulty time : number) :
  Page.has_worker (loaded (Game:=Game) difficulty time).
Proof. now eexists. Qed.

(** *** makeAiMove *)

Lemma aiTimeout_sent a (now : number) :
  Page.has_worker a ->
  Page.sent (aiTimeout a now)
  = List.app (Page.sent a)
      ["position fen " ++ Chess_fen (game a); Page.go_command (gameState a)].
Proof.
  intros [w Hw]. unfold aiTimeout, setPosition, search.
  rewrite (postCommand_with_worker _ w _ Hw). cbv zeta.
  unfold Page.sent, Page.go_command, messages_of. simpl.
  rewrite Hw, <- app_assoc. simpl.
  destruct (aiMode (gameState a)); simpl;
    [destruct (Number_truthy (aiDepth (gameState a)))
    |destruct (Number_truthy (aiTime (gameState a)))]; reflexivity.
Qed.


(** *** Where the moves of handleMove come from *)

Lemma fragment_offers a (el : SquareElement) (move : Move) :
  In el (renderBoard_fragment a) ->
  onclick el = OnHandleMove move ->
  In move (possibleMoves (gameState a)).
Proof.
  unfold renderBoard_fragment. intros Hin Hclick.
  apply in_flat_map in Hin. destruct Hin as (r & _ & Hin).
  apply in_map_iff in Hin. destruct Hin as (c & <- & _).
  change (onclick (renderBoard_cell a r c))
    with (match find (fun m => String.eqb (move_to m)
                                 (Squares.square_at (isFlipped (gameState a)) r c))
                  (possibleMoves (gameState a)) with
          | Some m => OnHandleMove m
          | None => OnHandleSquareClick
                      (Squares.square_at (isFlipped (gameState a)) r c)
          end) in Hclick.
  destruct (find _ _) as [m|] eqn:Hfind; [|discriminate].
  inversion Hclick; subst. now apply find_some in Hfind.
Qed.

Lemma renderBoard_offers a : Page.offers_possibleMoves (renderBoard a).
Proof.
  intros el move Hin Hclick. now apply (fragment_offers a el move).
Qed.

Lemma updateUI_offers a : Page.offers_possibleMoves (updateUI a).
Proof.
  intros el move Hin Hclick. now apply (fragment_offers a el move).
Qed.

Lemma keeps_view_offers a a' :
  Page.keeps_view a a' ->
  Page.offers_possibleMoves a -> Page.offers_possibleMoves a'.
Proof.
  intros [Hb Hs] Ha el move Hin Hclick.
  rewrite Hb in Hin. injection Hs as _ ->. now apply (Ha el move).
Qed.

Lemma keeps_view_refl a : Page.keeps_view a a.
Proof. now split. Qed.

Lemma same_effect a : Page.listener_effect a a.
Proof. left. apply keeps_view_refl. Qed.

Lemma handleSquareClick_effect a (square : Square) :
  Page.listener_effect a (handleSquareClick a square).
Proof.
  destruct (handleSquareClick_selects a square) as [->|[->| ->]].
  - apply same_effect.
  - right. split; [apply renderBoard_offers|]. right. now left.
  - right. split; [apply renderBoard_offers|]. right. right. now exists square.
Qed.

Lemma handleMove_effect a (move : Move) :
  Page.listener_effect a (handleMove a move).
Proof.
  unfold handleMove.
  destruct (Chess_move (game a) move) as [g|]; [|apply same_effect].
  cbv zeta. right.
  destruct (negb _).
  - split; [|right; now left].
    apply keeps_view_offers with (updateUI
      (with_gameState (with_game a g) (clear_selection (gameState (with_game a g))))).
    + now split.
    + apply updateUI_offers.
  - split; [apply updateUI_offers | right; now left].
Qed.

Lemma onBestMove_closure_effect a (moveStr : string) :
  Page.listener_effect a (onBestMove_closure a moveStr).
Proof.
  unfold onBestMove_closure. cbv zeta.
  destruct (Chess_move_uci _ _ _ _) as [g|].
  - right. split; [apply updateUI_offers | now left].
  - left. now split.
Qed.

Lemma init_continue_effect a : Page.listener_effect a (init_continue threads a).
Proof.
  unfold init_continue.
  destruct (postCommand (Session.engine (engine a)) _) as [e|]; [|left; now split].
  match goal with
  | |- context [postCommand ?e0 ?cmd] => destruct (postCommand e0 cmd) as [e2|]
  end; [|left; now split].
  right. split; [apply updateUI_offers | now left].
Qed.

Lemma startNewGame_effect a : Page.listener_effect a (startNewGame a).
Proof.
  unfold startNewGame. cbv zeta.
  destruct (newGame _) as [e|]; [|left; now split].
  right. split; [apply updateUI_offers|]. right. left.
  now destruct (playerColor _).
Qed.

Lemma play_as_effect a (color : Color) (confirmed : bool) :
  Page.listener_effect a (play_as a color confirmed).
Proof.
  unfold play_as. destruct (_ && _); [apply same_effect|].
  cbv zeta.
  destruct (startNewGame_effect
              (with_gameState a (set_playerColor (gameState a) color)))
    as [[Hb Hs]|[Ho Hsel]].
  - left. now split.
  - right. split; [exact Ho|]. destruct Hsel as [Hsel|[Hsel|Hsel]]; auto.
Qed.

Lemma undo_click_effect a : Page.listener_effect a (undo_click a).
Proof.
  unfold undo_click. destruct (isAiThinking (gameState a)); [apply same_effect|].
  cbv zeta. right.
  match goal with
  | |- context [updateUI ?x] =>
      assert (Hui : Page.offers_possibleMoves (updateUI x))
        by apply updateUI_offers;
      assert (Hmk : Page.keeps_view (updateUI x) (makeAiMove (updateUI x)))
        by now split
  end.
  destruct (negb _ && negb _).
  - split; [now apply (keeps_view_offers _ _ Hmk) | right; now left].
  - split; [exact Hui | right; now left].
Qed.

Lemma aiTimeout_keeps_view a (now : number) : Page.keeps_view a (aiTimeout a now).
Proof.
  unfold aiTimeout. destruct (setPosition _ _) as [e|]; now split.
Qed.

Lemma step_effect a ev : Page.listener_effect a (step threads a ev).
Proof.
  destruct ev as [i|data| |now|v|v|v|c|c| |]; simpl.
  - destruct (array_get (board (elements a)) i) as [el|]; [|apply same_effect].
    destruct (onclick el); simpl;
      [apply handleMove_effect | apply handleSquareClick_effect].
  - unfold Session.receive.
    destruct (worker (Session.engine (engine a))); [|left; now split].
    destruct (onmessage (Session.engine (engine a)) data) as [|[] move|].
    + destruct (is_pending (engine a)); [|left; now split].
      match goal with
      | |- Page.listener_effect a (init_continue threads ?x) =>
          destruct (init_continue_effect x) as [[Hb Hs]|[Ho Hsel]]
      end.
      * left. now split.
      * right. split; [exact Ho|]. destruct Hsel as [Hsel|[Hsel|Hsel]]; auto.
    + match goal with
      | |- Page.listener_effect a (onBestMove_closure ?x move) =>
          destruct (onBestMove_closure_effect x move) as [[Hb Hs]|[Ho Hsel]]
      end.
      * left. now split.
      * right. split; [exact Ho|]. destruct Hsel as [Hsel|[Hsel|Hsel]]; auto.
    + left. now split.
  - destruct (is_pending (engine a)); left; now split.
  - destruct (timeouts a) as [|n]; [apply same_effect|].
    destruct (aiTimeout_keeps_view (with_timeouts a n) now) as [Hb Hs].
    left. now split.
  - left. now split.
  - left. now split.
  - left. now split.
  - apply play_as_effect.
  - apply play_as_effect.
  - apply undo_click_effect.
  - right. split; [apply renderBoard_offers | now left].
Qed.

Lemma run_snoc a (events : list (Event number)) ev :
  run threads a (events ++ [ev]) = step threads (run threads a events) ev.
Proof.
  unfold run. now rewrite fold_left_app.
Qed.

Lemma run_offers (difficulty time : number) (events : list (Event number)) :
  Page.offers_possibleMoves (run threads (loaded (Game:=Game) difficulty time) events).
Proof.
  induction events as [|ev events IH] using rev_ind.
  - intros el move Hin. contradiction Hin.
  - rewrite run_snoc.
    destruct (step_effect (run threads (loaded difficulty time) events) ev)
      as [Hk|[Ho _]]; [|exact Ho].
    now apply (keeps_view_offers _ _ Hk).
Qed.



End MainFacts.

(** *** The page on concrete clicks *)

Module PageExamples.
Import Main Inputs.
#[local] Existing Instance PawnPush.PawnPush_Chess.


Lemma handleSquareClick_frame_witness :
  let a := PawnPush.run e2e3_played in
  (isAiThinking (gameState a) = true \/
   Chess_isGameOver (game a) = true \/
   Chess_turn (game a) <> playerColor (gameState a)) /\
  handleSquareClick a "d2" = a.
Proof.
  split; [left; vm_compute; reflexivity|].
  destruct (handleSquareClick_frame (PawnPush.run e2e3_played) "d2")
    as (_ & _ & _ & _ & _ & Hguard).
  apply Hguard. left. vm_compute. reflexivity.
Defined.



(** C10 (counterexample): a command posted between [init()] and 'readyok'.
    On the engine alone, [newGame()] right after [init()] posts
    'ucinewgame' while the promise is pending, and the promise is then
    fulfilled with three commands posted.  On the page, "Play as Black"
    before the engine has answered posts 'ucinewgame', and the timeout of
    [makeAiMove] posts a position and a go command, all before 'readyok'. *)
Lemma commands_posted_before_readyok :
  (let s := Session.run (number:=IntOrNaN) (Callback:=unit) Session.fresh
              [Session.CallInit; Session.CallNewGame] in
   Session.promise s = Some Session.Pending /\
   Session.emitted s = [] /\
   messages_of (Session.engine s) = ["uci"; "isready"; "ucinewgame"]) /\
  (let s := Session.run (number:=IntOrNaN) (Callback:=unit) Session.fresh
              [Session.CallInit; Session.CallNewGame;
               Session.WorkerMessage "readyok"] in
   Session.promise s = Some Session.Fulfilled /\
   messages_of (Session.engine s) = ["uci"; "isready"; "ucinewgame"]) /\
  (let a := PawnPush.run black_before_readyok in
   is_pending (engine a) = true /\
   Session.emitted (engine a) = [] /\
   Page.sent a
   = ["uci"; "isready"; "ucinewgame"; "position fen "; "go depth 10"]).
Proof.
  vm_compute. repeat split.
Qed.

End PageExamples.

(** * More properties of the engine wrapper *)

(** *** Lines split at spaces *)

Lemma split_space_not_nil (s : string) : split_space s <> [].
Proof.
  destruct s as [|c rest]; simpl; [discriminate|].
  destruct (Ascii.eqb c " "); [discriminate|].
  destruct (split_space rest); discriminate.
Qed.

Lemma split_space_join (s : string) : String.concat " " (split_space s) = s.
Proof.
  induction s as [|c rest IH]; [reflexivity|].
  simpl split_space.
  destruct (Ascii.eqb_spec c " ") as [->|_].
  - destruct (split_space rest) as [|piece pieces] eqn:E;
      [now apply split_space_not_nil in E|].
    change (String.concat " " ("" :: piece :: pieces))
      with (" " ++ String.concat " " (piece :: pieces)).
    now rewrite IH.
  - destruct (split_space rest) as [|piece pieces] eqn:E;
      [now apply split_space_not_nil in E|].
    rewrite <- IH. now destruct pieces.
Qed.

Lemma split_space_pieces (s : string) :
  Forall (fun piece => Lines.no_space piece = true) (split_space s).
Proof.
  induction s as [|c rest IH]; simpl; [now repeat constructor|].
  destruct (Ascii.eqb c " ") eqn:Ec; [now constructor|].
  destruct (split_space rest) as [|piece pieces]; [now repeat constructor; simpl; rewrite Ec|].
  inversion IH; subst. constructor; [|assumption].
  simpl. now rewrite Ec.
Qed.

Lemma split_space_length (s : string) :
  List.length (split_space s) = S (Lines.spaces s).
Proof.
  induction s as [|c rest IH]; simpl; [reflexivity|].
  destruct (Ascii.eqb c " "); simpl; [now rewrite IH|].
  destruct (split_space rest) as [|piece pieces] eqn:E;
    [now apply split_space_not_nil in E|].
  exact IH.
Qed.

Lemma split_space_piece (piece rest : string) :
  Lines.no_space piece = true ->
  split_space (piece ++ " " ++ rest) = piece :: split_space rest.
Proof.
  induction piece as [|c piece IH]; simpl; intros Hp; [reflexivity|].
  apply andb_prop in Hp. destruct Hp as [Hc Hp].
  apply negb_true_iff in Hc. rewrite Hc.
  change (piece ++ String " " rest) with (piece ++ " " ++ rest).
  now rewrite (IH Hp).
Qed.

Lemma split_space_whole (piece : string) :
  Lines.no_space piece = true -> split_space piece = [piece].
Proof.
  induction piece as [|c piece IH]; simpl; intros Hp; [reflexivity|].
  apply andb_prop in Hp. destruct Hp as [Hc Hp].
  apply negb_true_iff in Hc. rewrite Hc.
  now rewrite (IH Hp).
Qed.

Lemma split_space_first (piece tail : string) :
  Lines.no_space piece = true ->
  Lines.ends_piece tail = true ->
  exists pieces, split_space (piece ++ tail) = piece :: pieces.
Proof.
  intros Hp Ht. destruct tail as [|c tail].
  - rewrite string_app_empty_r. exists []. now apply split_space_whole.
  - simpl in Ht. apply Ascii.eqb_eq in Ht. subst c.
    exists (split_space tail).
    now apply (split_space_piece piece tail).
Qed.

Lemma prefix_before_space (p first rest : string) :
  Lines.no_space p = true ->
  String.prefix p (first ++ " " ++ rest) = true ->
  String.prefix p first = true.
Proof.
  revert first. induction p as [|c p IH]; intros first Hp Hpre.
  - now destruct first.
  - simpl in Hp. apply andb_prop in Hp. destruct Hp as [Hc Hp].
    destruct first as [|c' first]; simpl in Hpre |- *.
    + destruct (Ascii.ascii_dec c " ") as [->|_]; [discriminate Hc | discriminate].
    + destruct (Ascii.ascii_dec c c'); [now apply IH | discriminate].
Qed.

Lemma prefix_app (p s : string) : String.prefix p (p ++ s) = true.
Proof.
  induction p as [|c p IH]; simpl; [now destruct s|].
  now destruct (Ascii.ascii_dec c c).
Qed.

Lemma prefix_app_r (p first rest : string) :
  String.prefix p first = true -> String.prefix p (first ++ rest) = true.
Proof.
  revert first. induction p as [|c p IH]; intros first Hpre.
  - now destruct (first ++ rest).
  - destruct first as [|c' first]; simpl in Hpre |- *; [discriminate|].
    destruct (Ascii.ascii_dec c c'); [now apply IH | discriminate].
Qed.

(** X1: [data.split(' ')] loses nothing: joining the pieces with single
    spaces gives [data] back, no piece contains a space, and there is one
    piece more than [data] has spaces. *)
Theorem split_space_round_trip (data : string) :
  String.concat " " (split_space data) = data /\
  Forall (fun piece => Lines.no_space piece = true) (split_space data) /\
  List.length (split_space data) = S (Lines.spaces data).
Proof.
  split; [apply split_space_join|].
  split; [apply split_space_pieces | apply split_space_length].
Qed.

Section LineFacts.
Context {Callback : Type}.
Implicit Types (e : ChessEngine Callback).

(** X2: the lines that reach the callback.  [onBestMove] is called with
    [move] exactly for the lines [first ++ " " ++ move ++ tail] where
    [first] starts with "bestmove" and has no space, [move] is not empty,
    has no space and is not "(none)", and [tail] is empty or begins with a
    space (a ponder part, which is dropped). *)
Theorem onmessage_bestmove_lines e (data : string) (cb : Callback) (move : string) :
  onmessage e data = BestMove cb move <->
  onBestMove e = Some cb /\
  move <> "" /\ move <> "(none)" /\ Lines.no_space move = true /\
  exists first tail,
    data = first ++ " " ++ move ++ tail /\
    startsWith first "bestmove" = true /\
    Lines.no_space first = true /\
    Lines.ends_piece tail = true.
Proof.
  unfold onmessage, array_get. split.
  - destruct (String.eqb data "readyok"); [discriminate|].
    destruct (startsWith data "bestmove") eqn:Hpre; [|discriminate].
    destruct (onBestMove e) as [cb'|]; [|discriminate].
    pose proof (split_space_join data) as Hjoin.
    pose proof (split_space_pieces data) as Hpieces.
    destruct (split_space data) as [|first [|mv rest]]; cbn [nth_error];
      try discriminate.
    destruct (String_truthy mv) eqn:Ht; simpl; [|discriminate].
    destruct (String.eqb mv "(none)") eqn:Hn; simpl; [discriminate|].
    intros E. inversion E; subst.
    inversion Hpieces as [|? ? Hfirst Hrest]; subst.
    inversion Hrest as [|? ? Hmove _]; subst.
    repeat split; trivial.
    + now apply String_truthy_iff.
    + now apply String.eqb_neq.
    + exists first,
        (match rest with [] => "" | _ => " " ++ String.concat " " rest end).
      repeat split; trivial.
      * destruct rest; [now rewrite string_app_empty_r|reflexivity].
      * unfold startsWith in *.
        apply prefix_before_space
          with (rest := String.concat " " (move :: rest)); [reflexivity|].
        exact Hpre.
      * now destruct rest.
  - intros (Hcb & Hne & Hnone & Hmove & first & tail & -> & Hpre & Hfirst & Htail).
    assert (Hready : String.eqb (first ++ " " ++ move ++ tail) "readyok" = false).
    { apply String.eqb_neq. intros E.
      unfold startsWith in Hpre.
      apply (prefix_app_r _ _ (" " ++ move ++ tail)) in Hpre.
      rewrite E in Hpre. discriminate Hpre. }
    rewrite Hready. unfold startsWith in *.
    rewrite (prefix_app_r _ _ (" " ++ move ++ tail) Hpre), Hcb.
    rewrite (split_space_piece first (move ++ tail) Hfirst).
    destruct (split_space_first move tail Hmove Htail) as [pieces ->].
    cbn [nth_error].
    apply String_truthy_iff in Hne. apply String.eqb_neq in Hnone.
    now rewrite Hne, Hnone.
Qed.

End LineFacts.

(** *** Posted messages over time *)

Section SessionFacts.
Context {number : Type} `{JsNumber number}.
Context {Callback : Type}.

Lemma postCommand_grows (s : Session.Session Callback) (cmd : StockfishCommand number) :
  let s' := Session.after s (postCommand (Session.engine s) cmd) in
  (exists more,
      messages_of (Session.engine s')
      = (messages_of (Session.engine s) ++ more)%list /\
      List.length more <= 1) /\
  onBestMove (Session.engine s') = onBestMove (Session.engine s).
Proof.
  unfold postCommand, messages_of.
  destruct (worker (Session.engine s)) as [w|] eqn:Hw; simpl.
  - destruct (command_message cmd) as [message|]; simpl.
    + split; [|reflexivity]. exists [message]. split; [reflexivity | simpl; lia].
    + rewrite Hw. split; [|reflexivity]. exists []. split; [now rewrite app_nil_r | simpl; lia].
  - rewrite Hw. split; [|reflexivity]. exists []. split; [reflexivity | simpl; lia].
Qed.

(** X3: the engine never drops or reorders what it has posted, and never
    touches the callback: apart from [init()], which starts a new worker,
    every operation leaves the posted messages as they are or adds one at
    the end, and only an assignment to [onBestMove] changes the callback,
    which [init()] keeps too. *)
Theorem posted_messages_only_grow
  (s : Session.Session Callback) (op : Session.Op number Callback) :
  (op <> Session.CallInit ->
   exists more,
     messages_of (Session.engine (Session.step s op))
     = (messages_of (Session.engine s) ++ more)%list /\
     List.length more <= 1) /\
  ((forall cb, op <> Session.AssignOnBestMove cb) ->
   onBestMove (Session.engine (Session.step s op))
   = onBestMove (Session.engine s)).
Proof.
  assert (Hsame : exists more : list string,
             messages_of (Session.engine s)
             = (messages_of (Session.engine s) ++ more)%list /\
             List.length more <= 1)
    by (exists []; split; [now rewrite app_nil_r | simpl; lia]).
  destruct op as [|c|o| |fen|cb|data|]; simpl;
    try (split; intros _; apply postCommand_grows).
  - split; [now intros E | reflexivity].
  - split; [intros _; exact Hsame | intros E; now contradiction (E cb)].
  - unfold Session.receive.
    destruct (worker (Session.engine s)); simpl; now split.
  - now split.
Qed.

End SessionFacts.

(** * More properties of the page *)

Section SceneFacts.
Context {number : Type} `{JsNumber number}.
Context {Game : Type} `{Chess Game}.
Implicit Types (a : Main.App number Game).

Import Main.

(** *** One square *)

Lemma createSquareElement_children a (square : Square) (isLight : bool)
  (piece : option Piece) (lastMove : option Move)
  (rankLabel fileLabel : option string) :
  children (createSquareElement a square isLight piece lastMove rankLabel fileLabel)
  = ((match rankLabel with
      | Some t => if String_truthy t then [RankLabel t] else []
      | None => []
      end)
     ++ (match fileLabel with
         | Some t => if String_truthy t then [FileLabel t] else []
         | None => []
         end)
     ++ (match piece with
         | Some pc =>
             [PieceSpan (PIECES_get (Scene.piece_key (piece_color pc) (piece_type pc)))
                (Scene.piece_class (piece_color pc))]
         | None => []
         end))%list.
Proof.
  unfold createSquareElement. cbv zeta. cbn [children].
  destruct rankLabel as [t|]; [destruct (String_truthy t)|];
    (destruct fileLabel as [t'|]; [destruct (String_truthy t')|]);
    destruct piece as [[[] ty]|]; reflexivity.
Qed.

Lemma createSquareElement_classList a (square : Square) (isLight : bool)
  (piece : option Piece) (lastMove : option Move)
  (rankLabel fileLabel : option string) :
  classList (createSquareElement a square isLight piece lastMove rankLabel fileLabel)
  = (["square"; if isLight then "light" else "dark"]
     ++ (if match selectedSquare (gameState a) with
            | Some s => String.eqb s square
            | None => false
            end
         then ["selected"] else [])
     ++ (if match lastMove with
            | Some lm =>
                String.eqb (move_from lm) square || String.eqb (move_to lm) square
            | None => false
            end
         then ["last-move"] else [])
     ++ (match find (fun m => String.eqb (move_to m) square)
                 (possibleMoves (gameState a)) with
         | Some _ => ["possible-move"]
         | None => []
         end)
     ++ (if Chess_inCheck (game a)
            && match piece with
               | Some pc =>
                   match piece_type pc with King => true | _ => false end
                   && Color_eqb (piece_color pc) (Chess_turn (game a))
               | None => false
               end
         then ["check"] else []))%list.
Proof.
  unfold createSquareElement. cbv zeta. cbn [classList].
  destruct (selectedSquare (gameState a)) as [s|]; [destruct (String.eqb s square)|];
    (destruct lastMove as [lm|];
     [destruct (String.eqb (move_from lm) square || String.eqb (move_to lm) square)|]);
    destruct (find _ _);
    destruct (Chess_inCheck (game a) && _); reflexivity.
Qed.

Lemma flat_map_flat_map {A B C} (f : B -> list C) (g : A -> list B) (l : list A) :
  flat_map f (flat_map g l) = flat_map (fun x => flat_map f (g x)) l.
Proof.
  induction l as [|x l IH]; simpl; [reflexivity|].
  now rewrite flat_map_app, IH.
Qed.

Lemma flat_map_map {A B C} (f : B -> list C) (g : A -> B) (l : list A) :
  flat_map f (map g l) = flat_map (fun x => f (g x)) l.
Proof.
  induction l as [|x l IH]; simpl; [reflexivity | now rewrite IH].
Qed.

Lemma in_fragment a (el : SquareElement) :
  In el (renderBoard_fragment a) <->
  exists r c, In r (seq 0 8) /\ In c (seq 0 8) /\ el = renderBoard_cell a r c.
Proof.
  unfold renderBoard_fragment. rewrite in_flat_map. split.
  - intros (r & Hr & Hin). apply in_map_iff in Hin.
    destruct Hin as (c & <- & Hc). now exists r, c.
  - intros (r & c & Hr & Hc & ->). exists r. split; [exact Hr|].
    apply in_map_iff. now exists c.
Qed.

(** Rows and columns as the loops number them, and as the board shows
    them. *)
Lemma cell_children a (r c : nat) :
  let flipped := isFlipped (gameState a) in
  let row := if flipped then 7 - r else r in
  let col := if flipped then 7 - c else c in
  children (renderBoard_cell a r c)
  = ((if Nat.eqb c 0 && String_truthy (String_of_nat (8 - row))
      then [RankLabel (String_of_nat (8 - row))] else [])
     ++ (if Nat.eqb r 7 then [FileLabel (fromCharCode (97 + col))] else [])
     ++ (match Chess_get (game a) (Squares.square_at flipped r c) with
         | Some pc =>
             [PieceSpan (PIECES_get (Scene.piece_key (piece_color pc) (piece_type pc)))
                (Scene.piece_class (piece_color pc))]
         | None => []
         end))%list.
Proof.
  cbv zeta. unfold renderBoard_cell. cbv zeta.
  rewrite createSquareElement_children.
  destruct (Nat.eqb c 0), (Nat.eqb r 7); reflexivity.
Qed.

Lemma cell_onclick a (r c : nat) :
  let square := Squares.square_at (isFlipped (gameState a)) r c in
  onclick (renderBoard_cell a r c)
  = match find (fun m => String.eqb (move_to m) square)
            (possibleMoves (gameState a)) with
    | Some m => OnHandleMove m
    | None => OnHandleSquareClick square
    end.
Proof. reflexivity. Qed.

Lemma cell_classList a (r c : nat) :
  let flipped := isFlipped (gameState a) in
  let row := if flipped then 7 - r else r in
  let col := if flipped then 7 - c else c in
  let square := Squares.square_at flipped r c in
  exists others,
    classList (renderBoard_cell a r c)
    = (["square"; if Nat.eqb ((row + col) mod 2) 0 then "light" else "dark"]
       ++ (if match selectedSquare (gameState a) with
              | Some s => String.eqb s square
              | None => false
              end
           then ["selected"] else [])
       ++ (if others : bool then ["last-move"] else [])
       ++ (match find (fun m => String.eqb (move_to m) square)
                   (possibleMoves (gameState a)) with
           | Some _ => ["possible-move"]
           | None => []
           end)
       ++ (if Chess_inCheck (game a)
              && match Chess_get (game a) square with
                 | Some pc =>
                     match piece_type pc with King => true | _ => false end
                     && Color_eqb (piece_color pc) (Chess_turn (game a))
                 | None => false
                 end
           then ["check"] else []))%list.
Proof.
  cbv zeta. unfold renderBoard_cell. cbv zeta.
  rewrite createSquareElement_classList. eexists. reflexivity.
Qed.

Lemma piece_glyphs_differ (c c' : Color) (t t' : PieceSymbol) :
  PIECES_get (Scene.piece_key c t) = PIECES_get (Scene.piece_key c' t') ->
  c = c' /\ t = t'.
Proof.
  destruct c, t, c', t'; vm_compute; intros E;
    first [now split | discriminate E].
Qed.

Lemma piece_glyph_exists (c : Color) (t : PieceSymbol) :
  exists glyph, PIECES_get (Scene.piece_key c t) = Some glyph.
Proof.
  destruct c, t; vm_compute; now eexists.
Qed.

(** X4: a drawn square shows a piece exactly when [game.get] reports one
    on that square: no span for an empty square, and for a piece one span
    with that piece's glyph from [PIECES] (the lookup never misses, and two
    different pieces never share a glyph) and its colour class. *)
Theorem board_shows_the_position a (el : SquareElement) :
  In el (renderBoard_fragment a) ->
  match Chess_get (game a) (dataset_square el) with
  | None => Scene.piece_spans el = []
  | Some pc =>
      exists glyph,
        PIECES_get (Scene.piece_key (piece_color pc) (piece_type pc)) = Some glyph /\
        Scene.piece_spans el = [(Some glyph, Scene.piece_class (piece_color pc))] /\
        forall c t, PIECES_get (Scene.piece_key c t) = Some glyph ->
                    c = piece_color pc /\ t = piece_type pc
  end.
Proof.
  intros Hin. apply in_fragment in Hin. destruct Hin as (r & c & _ & _ & ->).
  rewrite dataset_square_cell. unfold Scene.piece_spans.
  rewrite (cell_children a r c). cbv zeta.
  rewrite !flat_map_app.
  assert (Hrank : forall (b : bool) t,
             flat_map (fun ch => match ch with
                                 | PieceSpan t0 c0 => [(t0, c0)]
                                 | _ => []
                                 end) (if b then [RankLabel t] else []) = [])
    by (now intros []).
  assert (Hfile : forall (b : bool) t,
             flat_map (fun ch => match ch with
                                 | PieceSpan t0 c0 => [(t0, c0)]
                                 | _ => []
                                 end) (if b then [FileLabel t] else []) = [])
    by (now intros []).
  rewrite Hrank, Hfile. simpl.
  destruct (Chess_get (game a) _) as [pc|]; [|reflexivity].
  destruct (piece_glyph_exists (piece_color pc) (piece_type pc)) as [glyph Hg].
  exists glyph. rewrite Hg. repeat split; trivial;
    apply (piece_glyphs_differ c0 (piece_color pc) t (piece_type pc)); congruence.
Qed.

(** X5: the order of the squares.  With the board not flipped the squares
    run a8, b8, ..., h8, a7, ..., h1, White at the bottom; flipped they run
    in the reverse order; and the board is flipped exactly when the player
    is Black and the board is not rotated, or is White and it is rotated. *)
Theorem renderBoard_orientation a :
  map dataset_square (board (elements (renderBoard a)))
  = (if isFlipped (gameState a) then rev Scene.from_white else Scene.from_white) /\
  isFlipped (gameState a)
  = xorb (isBoardRotated (gameState a))
      (Color_eqb (playerColor (gameState a)) Black).
Proof.
  split.
  - change (board (elements (renderBoard a))) with (renderBoard_fragment a).
    rewrite squares_of_fragment.
    destruct (isFlipped (gameState a)); vm_compute; reflexivity.
  - unfold isFlipped.
    now destruct (isBoardRotated (gameState a)), (playerColor (gameState a)).
Qed.

(** X6: the colour of a square goes with its name, whichever way the board
    is turned: a drawn square is "light" when its file letter and rank digit
    have an odd sum of character codes (h1, a8, ...), and "dark" otherwise
    (a1, h8, ...). *)
Theorem square_colour_by_name a (el : SquareElement) :
  In el (renderBoard_fragment a) ->
  Scene.colour_of el
  = (if Scene.light_square (dataset_square el) then "light" else "dark").
Proof.
  intros Hin. apply in_fragment in Hin. destruct Hin as (r & c & Hr & Hc & ->).
  rewrite dataset_square_cell. unfold Scene.colour_of.
  destruct (cell_classList a r c) as [others ->]. cbv zeta.
  cbn [app nth].
  simpl in Hr, Hc.
  destruct (isFlipped (gameState a));
    repeat (destruct Hr as [<-|Hr]; [|]); try contradiction;
    repeat (destruct Hc as [<-|Hc]; [|]); try contradiction;
    vm_compute; reflexivity.
Qed.

Lemma cell_rank_label a (r c : nat) :
  let row := if isFlipped (gameState a) then 7 - r else r in
  Scene.rank_labels [renderBoard_cell a r c]
  = (if Nat.eqb c 0 && String_truthy (String_of_nat (8 - row))
     then [String_of_nat (8 - row)] else []).
Proof.
  cbv zeta. unfold Scene.rank_labels. cbn [flat_map]. rewrite app_nil_r.
  rewrite (cell_children a r c). cbv zeta. rewrite !flat_map_app.
  destruct (Nat.eqb c 0 && _), (Nat.eqb r 7), (Chess_get _ _); reflexivity.
Qed.

Lemma cell_file_label a (r c : nat) :
  let col := if isFlipped (gameState a) then 7 - c else c in
  Scene.file_labels [renderBoard_cell a r c]
  = (if Nat.eqb r 7 then [fromCharCode (97 + col)] else []).
Proof.
  cbv zeta. unfold Scene.file_labels. cbn [flat_map]. rewrite app_nil_r.
  rewrite (cell_children a r c). cbv zeta. rewrite !flat_map_app.
  destruct (Nat.eqb c 0 && _), (Nat.eqb r 7), (Chess_get _ _); reflexivity.
Qed.

Lemma labels_of_fragment (labels : list SquareElement -> list string) a :
  (forall els, labels els = flat_map (fun el => labels [el]) els) ->
  labels (renderBoard_fragment a)
  = flat_map (fun r => flat_map (fun c => labels [renderBoard_cell a r c]) (seq 0 8))
      (seq 0 8).
Proof.
  intros Hl. rewrite Hl. unfold renderBoard_fragment.
  rewrite flat_map_flat_map. apply flat_map_ext. intros r.
  now rewrite flat_map_map.
Qed.

Lemma rank_labels_pointwise (els : list SquareElement) :
  Scene.rank_labels els = flat_map (fun el => Scene.rank_labels [el]) els.
Proof.
  unfold Scene.rank_labels. apply flat_map_ext. intros el.
  cbn [flat_map]. now rewrite app_nil_r.
Qed.

Lemma file_labels_pointwise (els : list SquareElement) :
  Scene.file_labels els = flat_map (fun el => Scene.file_labels [el]) els.
Proof.
  unfold Scene.file_labels. apply flat_map_ext. intros el.
  cbn [flat_map]. now rewrite app_nil_r.
Qed.

(** X7: the coordinates around the board.  A drawn square carries a rank
    label exactly in the first column and a file label exactly in the last
    row; read down the first column the ranks are 8 to 1, and along the last
    row the files are a to h, and both run the other way on a flipped
    board. *)
Theorem board_labels a :
  (forall r c,
      Scene.rank_labels [renderBoard_cell a r c] <> [] -> c = 0) /\
  (forall r c,
      Scene.file_labels [renderBoard_cell a r c] <> [] -> r = 7) /\
  Scene.rank_labels (renderBoard_fragment a)
  = (if isFlipped (gameState a)
     then ["1"; "2"; "3"; "4"; "5"; "6"; "7"; "8"]
     else ["8"; "7"; "6"; "5"; "4"; "3"; "2"; "1"]) /\
  Scene.file_labels (renderBoard_fragment a)
  = (if isFlipped (gameState a)
     then ["h"; "g"; "f"; "e"; "d"; "c"; "b"; "a"]
     else ["a"; "b"; "c"; "d"; "e"; "f"; "g"; "h"]).
Proof.
  split; [|split; [|split]].
  - intros r c. rewrite (cell_rank_label a r c). cbv zeta.
    destruct (Nat.eqb_spec c 0); [easy | now intros E].
  - intros r c. rewrite (cell_file_label a r c). cbv zeta.
    destruct (Nat.eqb_spec r 7); [easy | now intros E].
  - rewrite (labels_of_fragment Scene.rank_labels a rank_labels_pointwise).
    erewrite flat_map_ext.
    2:{ intros r. apply flat_map_ext. intros c. apply cell_rank_label. }
    cbv zeta. destruct (isFlipped (gameState a)); vm_compute; reflexivity.
  - rewrite (labels_of_fragment Scene.file_labels a file_labels_pointwise).
    erewrite flat_map_ext.
    2:{ intros r. apply flat_map_ext. intros c. apply cell_file_label. }
    cbv zeta. destruct (isFlipped (gameState a)); vm_compute; reflexivity.
Qed.

Lemma has_class_app (c : string) (xs ys : list string) (h : Handler)
  (sq : Square) (kids : list Child) :
  Scene.has_class c (mkSquareElement (xs ++ ys) sq kids h)
  = Scene.has_class c (mkSquareElement xs sq kids h)
    || Scene.has_class c (mkSquareElement ys sq kids h).
Proof.
  unfold Scene.has_class. simpl. apply existsb_app.
Qed.

(** What a drawn square does on a click and how it is marked. *)
Lemma cell_wiring a (r c : nat) :
  let el := renderBoard_cell a r c in
  Scene.wired el /\
  (Scene.has_class "possible-move" el = true <->
   exists move, onclick el = OnHandleMove move) /\
  (Scene.has_class "selected" el = true <->
   selectedSquare (gameState a) = Some (dataset_square el)).
Proof.
  cbv zeta. rewrite dataset_square_cell.
  unfold Scene.wired, Scene.has_class.
  rewrite dataset_square_cell, (cell_onclick a r c). cbv zeta.
  destruct (cell_classList a r c) as [others ->]. cbv zeta.
  set (square := Squares.square_at (isFlipped (gameState a)) r c).
  rewrite !existsb_app.
  assert (Hcheck : forall b : bool,
             existsb (String.eqb "possible-move") (if b then ["check"] else []) = false
             /\ existsb (String.eqb "selected") (if b then ["check"] else []) = false)
    by (now intros []).
  assert (Hlast : forall b : bool,
             existsb (String.eqb "possible-move") (if b then ["last-move"] else []) = false
             /\ existsb (String.eqb "selected") (if b then ["last-move"] else []) = false)
    by (now intros []).
  assert (Hbase : forall b : bool,
             existsb (String.eqb "possible-move")
               ["square"; if b then "light" else "dark"] = false
             /\ existsb (String.eqb "selected")
                  ["square"; if b then "light" else "dark"] = false)
    by (now intros []).
  rewrite (proj1 (Hcheck _)), (proj2 (Hcheck _)),
    (proj1 (Hlast _)), (proj2 (Hlast _)), (proj1 (Hbase _)), (proj2 (Hbase _)).
  destruct (find _ (possibleMoves (gameState a))) as [m|] eqn:Hfind.
  - apply find_some in Hfind. destruct Hfind as [_ Hto].
    apply String.eqb_eq in Hto.
    split; [exact Hto|]. split.
    + split; [now exists m|].
      intros _. destruct (match selectedSquare (gameState a) with
                          | Some s => String.eqb s square
                          | None => false
                          end); reflexivity.
    + destruct (selectedSquare (gameState a)) as [s|]; simpl.
      * destruct (String.eqb_spec s square) as [->|Hne]; simpl;
          split; try easy. intros E. now inversion E.
      * split; easy.
  - split; [reflexivity|]. split.
    + destruct (match selectedSquare (gameState a) with
                | Some s => String.eqb s square
                | None => false
                end); simpl; split; try easy; now intros [m E].
    + destruct (selectedSquare (gameState a)) as [s|]; simpl.
      * destruct (String.eqb_spec s square) as [->|Hne]; simpl;
          split; try easy. intros E. now inversion E.
      * split; easy.
Qed.

(** X8: rotating the board twice is a redraw: the state is the one
    [renderBoard] gives, and a single rotation shows the squares in the
    reverse order. *)
Theorem rotate_twice a :
  rotate_click (rotate_click a) = renderBoard a /\
  map dataset_square (board (elements (rotate_click a)))
  = rev (map dataset_square (board (elements (renderBoard a)))).
Proof.
  split.
  - destruct a as [g e gs els t].
    destruct gs as [pc mode dp tm sel poss think start rot].
    now destruct rot.
  - change (board (elements (rotate_click a)))
      with (renderBoard_fragment
              (with_gameState a
                 (set_isBoardRotated (gameState a)
                    (negb (isBoardRotated (gameState a)))))).
    change (board (elements (renderBoard a))) with (renderBoard_fragment a).
    rewrite !squares_of_fragment. unfold isFlipped. simpl.
    destruct (isBoardRotated (gameState a)), (playerColor (gameState a));
      vm_compute; reflexivity.
Qed.

(** *** The move list *)

Lemma nth_error_mapi_from {A B} (f : A -> nat -> B) (l : list A) :
  forall k i,
    nth_error (mapi_from f k l) i
    = option_map (fun x => f x (k + i)) (nth_error l i).
Proof.
  induction l as [|x l IH]; intros k i; simpl.
  - now destruct i.
  - destruct i as [|i]; simpl.
    + now rewrite Nat.add_0_r.
    + rewrite IH. now rewrite Nat.add_succ_r.
Qed.

Lemma length_mapi_from {A B} (f : A -> nat -> B) (l : list A) :
  forall k, List.length (mapi_from f k l) = List.length l.
Proof.
  induction l as [|x l IH]; intros k; simpl; [reflexivity | now rewrite IH].
Qed.

(** X9: the move list has one entry per move of [game.history], in the same
    order; entry [i] (from 0) shows the squares of move [i], is numbered
    [i / 2 + 1], so that a White move and the reply share a number, and is
    marked "white" for even [i] and "black" for odd [i]; nothing else on the
    page changes. *)
Theorem renderHistory_entries a :
  let a' := renderHistory a in
  List.length (history (elements a')) = List.length (Chess_history (game a)) /\
  (forall i move,
      nth_error (Chess_history (game a)) i = Some move ->
      exists entry,
        nth_error (history (elements a')) i = Some entry /\
        history_from entry = move_from move /\
        history_to entry = move_to move /\
        history_moveNumber entry = i / 2 + 1 /\
        history_className entry = (if Nat.even i then "white" else "black")) /\
  (forall i, List.length (Chess_history (game a)) <= i ->
             nth_error (history (elements a')) i = None) /\
  board (elements a') = board (elements a) /\
  status (elements a') = status (elements a) /\
  game a' = game a /\ gameState a' = gameState a /\
  engine a' = engine a /\ timeouts a' = timeouts a.
Proof.
  cbv zeta.
  change (history (elements (renderHistory a)))
    with (mapi_from renderHistory_entry 0 (Chess_history (game a))).
  split; [apply length_mapi_from|].
  split; [|split; [|now repeat split]].
  - intros i move Hi. rewrite nth_error_mapi_from, Hi. simpl.
    eexists. split; [reflexivity|]. repeat split.
    cbn [history_className renderHistory_entry Nat.add].
    destruct (Nat.even i) eqn:E.
    + apply Nat.even_spec in E. destruct E as [k ->].
      now rewrite Nat.mul_comm, Nat.Div0.mod_mul.
    + assert (Ho : Nat.odd i = true) by (unfold Nat.odd; now rewrite E).
      apply Nat.odd_spec in Ho. destruct Ho as [k ->].
      replace ((2 * k + 1) mod 2) with 1; [reflexivity|].
      rewrite Nat.add_comm, Nat.mul_comm, Nat.Div0.mod_add. reflexivity.
  - intros i Hi. apply nth_error_None. now rewrite length_mapi_from.
Qed.

End SceneFacts.

Section PageFacts.
Context {number : Type} `{JsNumber number}.
Context {Game : Type} `{Chess Game}.
Variable threads : number.
Implicit Types (a : Main.App number Game) (ev : Main.Event number).

Import Main.

(** *** What the listeners do *)

Lemma no_moves_no_handleMove a (el : SquareElement) :
  possibleMoves (gameState a) = [] ->
  In el (renderBoard_fragment a) ->
  onclick el = OnHandleSquareClick (dataset_square el).
Proof.
  intros Hnil Hin. apply in_fragment in Hin.
  destruct Hin as (r & c & _ & _ & ->).
  rewrite dataset_square_cell, (cell_onclick a r c). cbv zeta.
  now rewrite Hnil.
Qed.

(** X10: what [handleMove] leaves behind.  If [game.move] throws, nothing
    has changed.  Otherwise the game is the one the library returned, the
    selection is empty, the board and the move list are redrawn and every
    square is back to [handleSquareClick]; the engine has been sent nothing
    yet; and an AI turn is scheduled (one more timeout, "AI is thinking...")
    exactly when the game is not over. *)
Theorem handleMove_outcomes a (move : Move) :
  match Chess_move (game a) move with
  | Throws _ => handleMove a move = a
  | Returns g =>
      let a' := handleMove a move in
      game a' = g /\
      Page.selection a' = (None, []) /\
      engine a' = engine a /\
      board (elements a') = renderBoard_fragment a' /\
      history (elements a')
      = mapi_from renderHistory_entry 0 (Chess_history g) /\
      (forall el, In el (board (elements a')) ->
                  onclick el = OnHandleSquareClick (dataset_square el)) /\
      (if Chess_isGameOver g
       then timeouts a' = timeouts a /\
            isAiThinking (gameState a') = isAiThinking (gameState a)
       else timeouts a' = S (timeouts a) /\
            isAiThinking (gameState a') = true /\
            status (elements a') = "AI is thinking...")
  end.
Proof.
  unfold handleMove.
  destruct (Chess_move (game a) move) as [g|]; [|reflexivity].
  cbv zeta.
  match goal with
  | |- context [Chess_isGameOver (game ?x)] => change (game x) with g
  end.
  assert (Hclicks : forall (x : App number Game) el,
             possibleMoves (gameState x) = [] ->
             board (elements x) = renderBoard_fragment x ->
             In el (board (elements x)) ->
             onclick el = OnHandleSquareClick (dataset_square el)).
  { intros x el Hnil Hb Hin. rewrite Hb in Hin.
    now apply (no_moves_no_handleMove x el). }
  destruct (Chess_isGameOver g) eqn:Hover; cbn [negb].
  - repeat split. intros el. now apply Hclicks.
  - repeat split.
    + intros el. now apply Hclicks.
    + cbn. now rewrite Hover.
Qed.


Lemma newGame_with_worker a (w : StockfishWorker) :
  worker (Session.engine (engine a)) = Some w ->
  newGame (number:=number) (Session.engine (engine a))
  = Returns (set_worker (Session.engine (engine a)) (postMessage w "ucinewgame")).
Proof.
  intros Hw. unfold newGame. now rewrite (postCommand_with_worker _ w _ Hw).
Qed.

Lemma startNewGame_sent a :
  Page.has_worker a ->
  Page.sent (startNewGame a) = (Page.sent a ++ ["ucinewgame"])%list.
Proof.
  intros [w Hw]. unfold startNewGame. cbv zeta.
  change (engine (with_game a (Chess_reset (game a)))) with (engine a).
  rewrite (newGame_with_worker a w Hw).
  unfold Page.sent, messages_of. rewrite Hw.
  now destruct (playerColor _).
Qed.

(** X12: choosing a colour.  With moves on the board and the question
    declined, nothing changes.  Otherwise the game is reset, the engine is
    sent exactly 'ucinewgame', the player has the chosen colour, nothing is
    selected and the board is redrawn; as Black an AI turn is scheduled, as
    White the AI is not thinking. *)
Theorem play_as_outcomes a (color : Color) (confirmed : bool) :
  Page.has_worker a ->
  if Nat.ltb 0 (List.length (Chess_history (game a))) && negb confirmed
  then play_as a color confirmed = a
  else
    let a' := play_as a color confirmed in
    Page.sent a' = (Page.sent a ++ ["ucinewgame"])%list /\
    game a' = Chess_reset (game a) /\
    playerColor (gameState a') = color /\
    Page.selection a' = (None, []) /\
    board (elements a') = renderBoard_fragment a' /\
    match color with
    | Black => isAiThinking (gameState a') = true /\ timeouts a' = S (timeouts a)
    | White => isAiThinking (gameState a') = false /\ timeouts a' = timeouts a
    end.
Proof.
  intros Hw. unfold play_as.
  destruct (Nat.ltb 0 _ && negb confirmed); [reflexivity|].
  cbv zeta.
  set (a0 := with_gameState a (set_playerColor (gameState a) color)).
  assert (Hw0 : Page.has_worker a0) by exact Hw.
  split; [exact (startNewGame_sent a0 Hw0)|].
  destruct Hw as [w Hw].
  unfold startNewGame. cbv zeta.
  change (engine (with_game a0 (Chess_reset (game a0)))) with (engine a).
  rewrite (newGame_with_worker a w Hw).
  destruct color; now repeat split.
Qed.

(** *** What is sent to the engine *)

Lemma init_continue_engine a (w : StockfishWorker) :
  worker (Session.engine (engine a)) = Some w ->
  engine (init_continue threads a)
  = Session.with_engine (engine a)
      {| worker := Some (mkWorker (posted w ++ Traffic.options threads));
         onBestMove := Some InitOnBestMove |}.
Proof.
  intros Hw. unfold init_continue.
  rewrite (postCommand_with_worker _ w _ Hw). cbn [command_message].
  cbv beta iota zeta.
  match goal with
  | |- context [postCommand ?e ?cmd] =>
      rewrite (postCommand_with_worker e (postMessage w
        ("setoption name Threads value " ++ Number_toString threads)) cmd eq_refl)
  end.
  cbn [command_message]. cbv beta iota zeta.
  unfold Traffic.options, postMessage, set_worker, set_onBestMove; simpl.
  now rewrite <- app_assoc.
Qed.

Lemma onmessage_readyok (e : ChessEngine MainCallback) (data : string) :
  onmessage e data = Resolve <-> data = "readyok".
Proof.
  split; [apply onmessage_resolve|].
  intros ->. reflexivity.
Qed.

Lemma step_sent a ev :
  Page.has_worker a ->
  Page.sent (step threads a ev) = (Page.sent a ++ Traffic.posted_by threads a ev)%list.
Proof.
  intros Hw.
  destruct ev as [i|data| |now|v|v|v|c|c| |]; cbn [step Traffic.posted_by];
    try (now rewrite app_nil_r).
  - rewrite app_nil_r.
    destruct (array_get (board (elements a)) i) as [el|]; [|reflexivity].
    unfold Page.sent. destruct (onclick el); simpl.
    + now rewrite handleMove_engine.
    + now rewrite handleSquareClick_engine.
  - destruct Hw as [w Hw]. unfold Session.receive. rewrite Hw.
    destruct (String.eqb_spec data "readyok") as [->|Hne].
    + change (onmessage (Session.engine (engine a)) "readyok") with (@Resolve MainCallback).
      destruct (is_pending (engine a)); simpl.
      * unfold Page.sent.
        erewrite init_continue_engine by (simpl; exact Hw).
        unfold messages_of. simpl. now rewrite Hw.
      * now rewrite app_nil_r.
    + rewrite andb_false_r, app_nil_r.
      destruct (onmessage (Session.engine (engine a)) data) as [|[] move|] eqn:R.
      * now apply onmessage_readyok in R.
      * unfold Page.sent. now rewrite onBestMove_closure_engine.
      * reflexivity.
  - rewrite app_nil_r. now destruct (is_pending (engine a)).
  - destruct (timeouts a) as [|n]; [now rewrite app_nil_r|].
    now rewrite (aiTimeout_sent (with_timeouts a n) now Hw).
  - unfold play_as. destruct (_ && _); [now rewrite app_nil_r|].
    cbv zeta. now rewrite startNewGame_sent.
  - unfold play_as. destruct (_ && _); [now rewrite app_nil_r|].
    cbv zeta. now rewrite startNewGame_sent.
  - rewrite app_nil_r. unfold Page.sent. now rewrite undo_click_engine.
Qed.

(** X13: everything the page sends.  In every state the page can reach, an
    event adds to the engine's messages exactly this: the first 'readyok'
    adds the two setoption commands, a due timeout adds the position and the
    go command, a colour button (unless declined) adds 'ucinewgame', and
    clicks on the board, undo, rotate, the sliders, the mode buttons, worker
    errors and every other worker message add nothing. *)
Theorem page_traffic (difficulty time : number) (events : list (Event number)) ev :
  let a := run threads (loaded (Game:=Game) difficulty time) events in
  Page.sent (step threads a ev)
  = (Page.sent a ++ Traffic.posted_by threads a ev)%list.
Proof.
  cbv zeta. apply step_sent. apply run_has_worker, loaded_has_worker.
Qed.

(** *** The page is never stale *)

Ltac kept_or_drawn :=
  first [ right; reflexivity | left; split; reflexivity ].

Ltac redraw := split; kept_or_drawn.

Lemma redraws_refl a : Traffic.redraws a a.
Proof. redraw. Qed.

Lemma handleSquareClick_redraws a (square : Square) :
  Traffic.redraws a (handleSquareClick a square).
Proof.
  destruct (handleSquareClick_selects a square) as [->|[->| ->]]; redraw.
Qed.

Lemma handleMove_redraws a (move : Move) : Traffic.redraws a (handleMove a move).
Proof.
  unfold handleMove.
  destruct (Chess_move (game a) move) as [g|]; [|redraw].
  cbv zeta. destruct (negb _); redraw.
Qed.

Lemma onBestMove_closure_redraws a (moveStr : string) :
  Traffic.redraws a (onBestMove_closure a moveStr).
Proof.
  unfold onBestMove_closure. cbv zeta.
  destruct (Chess_move_uci _ _ _ _) as [g|]; redraw.
Qed.

Lemma init_continue_redraws a : Traffic.redraws a (init_continue threads a).
Proof.
  unfold init_continue.
  destruct (postCommand (Session.engine (engine a)) _) as [e|]; [|redraw].
  match goal with
  | |- context [postCommand ?e0 ?cmd] => destruct (postCommand e0 cmd) as [e2|]
  end; redraw.
Qed.

Lemma startNewGame_redraws a : Page.has_worker a -> Traffic.redraws a (startNewGame a).
Proof.
  intros [w Hw]. unfold startNewGame. cbv zeta.
  change (engine (with_game a (Chess_reset (game a)))) with (engine a).
  rewrite (newGame_with_worker a w Hw).
  destruct (playerColor _); redraw.
Qed.

Lemma play_as_redraws a (color : Color) (confirmed : bool) :
  Page.has_worker a -> Traffic.redraws a (play_as a color confirmed).
Proof.
  intros [w Hw]. unfold play_as. destruct (_ && _); [apply redraws_refl|].
  unfold startNewGame. cbv zeta.
  match goal with
  | |- context [newGame (Session.engine (engine ?x))] =>
      change (engine x) with (engine a)
  end.
  rewrite (newGame_with_worker a w Hw).
  destruct color; redraw.
Qed.

Lemma undo_click_redraws a : Traffic.redraws a (undo_click a).
Proof.
  unfold undo_click. destruct (isAiThinking (gameState a)); [apply redraws_refl|].
  cbv zeta. destruct (negb _ && negb _); redraw.
Qed.

Lemma aiTimeout_redraws a (now : number) : Traffic.redraws a (aiTimeout a now).
Proof.
  unfold aiTimeout. destruct (setPosition _ _) as [e|]; redraw.
Qed.

Lemma step_redraws a ev : Page.has_worker a -> Traffic.redraws a (step threads a ev).
Proof.
  intros Hw.
  destruct ev as [i|data| |now|v|v|v|c|c| |]; cbn [step].
  - destruct (array_get (board (elements a)) i) as [el|]; [|apply redraws_refl].
    destruct (onclick el); simpl;
      [apply handleMove_redraws | apply handleSquareClick_redraws].
  - unfold Session.receive.
    destruct (worker (Session.engine (engine a))); [|redraw].
    destruct (onmessage (Session.engine (engine a)) data) as [|[] move|].
    + destruct (is_pending (engine a)); [|redraw].
      match goal with
      | |- Traffic.redraws a (init_continue threads ?x) =>
          exact (init_continue_redraws x)
      end.
    + match goal with
      | |- Traffic.redraws a (onBestMove_closure ?x move) =>
          exact (onBestMove_closure_redraws x move)
      end.
    + redraw.
  - destruct (is_pending (engine a)); redraw.
  - destruct (timeouts a) as [|n]; [apply redraws_refl|].
    exact (aiTimeout_redraws (with_timeouts a n) now).
  - redraw.
  - redraw.
  - redraw.
  - now apply play_as_redraws.
  - now apply play_as_redraws.
  - apply undo_click_redraws.
  - redraw.
Qed.

Lemma run_current (difficulty time : number) (events : list (Event number)) :
  let a := run threads (loaded (Game:=Game) difficulty time) events in
  Traffic.board_current a /\ Traffic.history_current a.
Proof.
  induction events as [|ev events IH] using rev_ind; [split; now left|].
  cbv zeta in *. rewrite run_snoc.
  set (a := run threads (loaded difficulty time) events) in *.
  assert (Hw : Page.has_worker a) by (apply run_has_worker, loaded_has_worker).
  destruct (step_redraws a ev Hw) as [Hb Hh]. destruct IH as [IHb IHh].
  split.
  - destruct Hb as [[Hb Hf]|Hb]; [|now right].
    destruct IHb as [IHb|IHb]; [left | right]; congruence.
  - destruct Hh as [[Hh Hg]|Hh]; [|now right].
    destruct IHh as [IHh|IHh]; [left | right]; congruence.
Qed.

(** X14: the page is never stale.  In every state the page can reach, the
    board is either still empty (nothing drawn yet) or exactly what
    [renderBoard] would draw from the present game and selection, so it has
    0 or 64 squares; and the move list is either still empty or exactly what
    [renderHistory] would draw from the present game. *)
Theorem page_never_stale (difficulty time : number) (events : list (Event number)) :
  let a := run threads (loaded (Game:=Game) difficulty time) events in
  (board (elements a) = [] \/ board (elements a) = board (elements (renderBoard a))) /\
  (List.length (board (elements a)) = 0 \/ List.length (board (elements a)) = 64) /\
  (history (elements a) = [] \/
   history (elements a) = history (elements (renderHistory a))).
Proof.
  cbv zeta. destruct (run_current difficulty time events) as [Hb Hh].
  split; [exact Hb|]. split; [|exact Hh].
  destruct Hb as [-> | ->]; [now left | right; apply length_fragment].
Qed.

(** X15: the squares on the page.  In every state the page can reach, a
    click on a square concerns that very square: it runs [handleMove] with a
    move that ends on it, or [handleSquareClick] for it.  The square is
    marked "possible-move" exactly in the first case, and "selected" exactly
    when it is the selected square. *)
Theorem page_squares (difficulty time : number) (events : list (Event number))
  (el : SquareElement) :
  let a := run threads (loaded (Game:=Game) difficulty time) events in
  In el (board (elements a)) ->
  Scene.wired el /\
  (Scene.has_class "possible-move" el = true <->
   exists move, onclick el = OnHandleMove move) /\
  (Scene.has_class "selected" el = true <->
   selectedSquare (gameState a) = Some (dataset_square el)).
Proof.
  intros a Hin.
  destruct (run_current difficulty time events) as [[Hb|Hb] _]; fold a in Hb;
    rewrite Hb in Hin; [contradiction Hin|].
  apply in_fragment in Hin. destruct Hin as (r & c & _ & _ & ->).
  exact (cell_wiring a r c).
Qed.

(** *** The selection *)

Lemma selection_sound_cleared a :
  selectedSquare (gameState a) = None ->
  possibleMoves (gameState a) = [] ->
  Traffic.selection_sound a.
Proof. now split. Qed.

Lemma selection_sound_idle a a' :
  isAiThinking (gameState a') = false ->
  (Page.selection a' = Page.selection a \/
   selectedSquare (gameState a') <> None) ->
  Traffic.selection_sound a -> Traffic.selection_sound a'.
Proof.
  intros Hidle Hsel [_ Hs]. split; [intros E; congruence|].
  destruct Hsel as [Hsel|Hsel]; [|now intros E].
  injection Hsel as Hsq Hpm. intros E. rewrite Hpm. apply Hs. congruence.
Qed.

Lemma selection_sound_same a a' :
  isAiThinking (gameState a') = isAiThinking (gameState a) ->
  Page.selection a' = Page.selection a ->
  Traffic.selection_sound a -> Traffic.selection_sound a'.
Proof.
  intros Ht Hsel [Hth Hs].
  injection Hsel as Hsq Hpm.
  split; intros E.
  - rewrite Hsq. apply Hth. congruence.
  - rewrite Hpm. apply Hs. congruence.
Qed.

Lemma thinking_offers_nothing a (el : SquareElement) (move : Move) :
  Traffic.selection_sound a ->
  Page.offers_possibleMoves a ->
  In el (board (elements a)) ->
  onclick el = OnHandleMove move ->
  isAiThinking (gameState a) = false.
Proof.
  intros [Hth Hs] Ho Hin Hclick.
  destruct (isAiThinking (gameState a)); [|reflexivity].
  specialize (Ho el move Hin Hclick).
  rewrite (Hs (Hth eq_refl)) in Ho. contradiction Ho.
Qed.

Lemma step_selection_sound a ev :
  Page.has_worker a ->
  Page.offers_possibleMoves a ->
  Traffic.selection_sound a -> Traffic.selection_sound (step threads a ev).
Proof.
  intros Hw Ho Hs.
  destruct ev as [i|data| |now|v|v|v|c|c| |]; cbn [step].
  - destruct (array_get (board (elements a)) i) as [el|] eqn:Hget; [|exact Hs].
    destruct (onclick el) as [move|square] eqn:Hclick; simpl.
    + unfold handleMove.
      destruct (Chess_move (game a) move) as [g|]; [|exact Hs].
      cbv zeta. destruct (negb _); now apply selection_sound_cleared.
    + destruct (isAiThinking (gameState a)) eqn:Hth.
      * now rewrite (handleSquareClick_guarded a square (or_introl Hth)).
      * destruct (handleSquareClick_selects a square) as [->|[->| ->]];
          [exact Hs | now apply selection_sound_cleared |].
        apply selection_sound_idle with a; [exact Hth | now right | exact Hs].
  - unfold Session.receive.
    destruct (worker (Session.engine (engine a)));
      [|now apply selection_sound_same with a].
    destruct (onmessage (Session.engine (engine a)) data) as [|[] move|].
    + destruct (is_pending (engine a)); [|now apply selection_sound_same with a].
      unfold init_continue.
      destruct (postCommand _ _) as [e|]; [|now apply selection_sound_same with a].
      match goal with
      | |- context [postCommand ?e0 ?cmd] => destruct (postCommand e0 cmd) as [e2|]
      end; now apply selection_sound_same with a.
    + unfold onBestMove_closure. cbv zeta.
      destruct (Chess_move_uci _ _ _ _) as [g|];
        (apply selection_sound_idle with a; [reflexivity | now left | exact Hs]).
    + now apply selection_sound_same with a.
  - destruct (is_pending (engine a)); now apply selection_sound_same with a.
  - destruct (timeouts a) as [|n]; [exact Hs|].
    unfold aiTimeout. destruct (setPosition _ _) as [e|];
      now apply selection_sound_same with a.
  - now apply selection_sound_same with a.
  - now apply selection_sound_same with a.
  - now apply selection_sound_same with a.
  - unfold play_as. destruct (_ && _); [exact Hs|].
    unfold startNewGame. cbv zeta. destruct (newGame _) as [e|].
    + destruct c; now apply selection_sound_cleared.
    + now apply selection_sound_same with a.
  - unfold play_as. destruct (_ && _); [exact Hs|].
    unfold startNewGame. cbv zeta. destruct (newGame _) as [e|].
    + destruct c; now apply selection_sound_cleared.
    + now apply selection_sound_same with a.
  - unfold undo_click. destruct (isAiThinking (gameState a)); [exact Hs|].
    cbv zeta. destruct (negb _ && negb _); now apply selection_sound_cleared.
  - now apply selection_sound_same with a.
Qed.

Lemma run_selection_sound (difficulty time : number) (events : list (Event number)) :
  Traffic.selection_sound (run threads (loaded (Game:=Game) difficulty time) events).
Proof.
  induction events as [|ev events IH] using rev_ind; [now split|].
  rewrite run_snoc. apply step_selection_sound; trivial.
  - apply run_has_worker, loaded_has_worker.
  - apply run_offers.
Qed.

(** X16: while the AI is thinking the board is locked.  In every state the
    page can reach with [isAiThinking] set, nothing is selected, no square
    offers a move, and neither a click on any square nor the undo button
    changes anything. *)
Theorem thinking_locks_the_board
  (difficulty time : number) (events : list (Event number)) :
  let a := run threads (loaded (Game:=Game) difficulty time) events in
  isAiThinking (gameState a) = true ->
  Page.selection a = (None, []) /\
  (forall el, In el (board (elements a)) ->
              onclick el = OnHandleSquareClick (dataset_square el)) /\
  (forall i, step threads a (Click i) = a) /\
  step threads a Undo = a.
Proof.
  intros a Hth.
  destruct (run_selection_sound difficulty time events) as [Hnone Hnil].
  fold a in Hnone, Hnil.
  assert (Hsel : selectedSquare (gameState a) = None) by now apply Hnone.
  assert (Hpm : possibleMoves (gameState a) = []) by now apply Hnil.
  assert (Hclicks : forall el, In el (board (elements a)) ->
                               onclick el = OnHandleSquareClick (dataset_square el)).
  { intros el Hin.
    destruct (run_current difficulty time events) as [[Hb|Hb] _]; fold a in Hb;
      rewrite Hb in Hin; [contradiction Hin|].
    now apply (no_moves_no_handleMove a). }
  split; [unfold Page.selection; now rewrite Hsel, Hpm|].
  split; [exact Hclicks|]. split.
  - intros i. cbn [step].
    destruct (array_get (board (elements a)) i) as [el|] eqn:Hget; [|reflexivity].
    rewrite (Hclicks el (nth_error_In _ _ Hget)). simpl.
    apply handleSquareClick_guarded. now left.
  - cbn [step]. unfold undo_click. now rewrite Hth.
Qed.

(** *** The engine is configured once *)

Lemma filter_posted_by a ev :
  filter Traffic.is_setoption (Traffic.posted_by threads a ev)
  = (if is_pending (engine a) && Traffic.is_readyok ev
     then Traffic.options threads else []).
Proof.
  destruct ev as [i|data| |now|v|v|v|c|c| |];
    cbn [Traffic.posted_by Traffic.is_readyok];
    rewrite ?andb_false_r; try reflexivity.
  - now destruct (is_pending (engine a) && String.eqb data "readyok").
  - destruct (timeouts a); [reflexivity|].
    unfold Page.go_command. now destruct (aiMode (gameState a)).
  - now destruct (_ && _).
  - now destruct (_ && _).
Qed.

Lemma pending_not_fulfilled (s : Session.Session MainCallback) :
  is_pending s = true -> Traffic.is_fulfilled s = false.
Proof.
  unfold is_pending, Traffic.is_fulfilled.
  now destruct (Session.promise s) as [[]|].
Qed.

Lemma post_keeps_promise (s : Session.Session MainCallback)
  (cmd : StockfishCommand number) :
  let s' := Session.after s (postCommand (Session.engine s) cmd) in
  Session.promise s' = Session.promise s /\
  onBestMove (Session.engine s') = onBestMove (Session.engine s).
Proof.
  unfold postCommand. destruct (worker (Session.engine s)); [|now split].
  now destruct (command_message cmd).
Qed.

Lemma aiTimeout_promise a (now : number) :
  Session.promise (engine (aiTimeout a now)) = Session.promise (engine a) /\
  onBestMove (Session.engine (engine (aiTimeout a now)))
  = onBestMove (Session.engine (engine a)).
Proof.
  unfold aiTimeout, setPosition, search, postCommand.
  destruct (worker (Session.engine (engine a))) as [w|]; [|now split].
  cbn [command_message]. cbv zeta. simpl. now split.
Qed.

Lemma startNewGame_promise a :
  Session.promise (engine (startNewGame a)) = Session.promise (engine a) /\
  onBestMove (Session.engine (engine (startNewGame a)))
  = onBestMove (Session.engine (engine a)).
Proof.
  unfold startNewGame, newGame, postCommand. cbv zeta.
  change (engine (with_game a (Chess_reset (game a)))) with (engine a).
  destruct (worker (Session.engine (engine a))) as [w|]; [|now split].
  cbn [command_message]. now destruct (playerColor _).
Qed.

Lemma step_promise a ev :
  Page.has_worker a ->
  let a' := step threads a ev in
  if is_pending (engine a) && Traffic.is_readyok ev
  then Traffic.is_fulfilled (engine a') = true /\
       onBestMove (Session.engine (engine a')) = Some InitOnBestMove
  else Traffic.is_fulfilled (engine a') = Traffic.is_fulfilled (engine a) /\
       onBestMove (Session.engine (engine a'))
       = onBestMove (Session.engine (engine a)).
Proof.
  intros Hw. cbv zeta.
  destruct ev as [i|data| |now|v|v|v|c|c| |];
    cbn [step Traffic.is_readyok]; rewrite ?andb_false_r; try (now split).
  - destruct (array_get (board (elements a)) i) as [el|]; [|now split].
    destruct (onclick el); simpl;
      [rewrite handleMove_engine | rewrite handleSquareClick_engine]; now split.
  - destruct Hw as [w Hw]. unfold Session.receive. rewrite Hw.
    destruct (String.eqb_spec data "readyok") as [->|Hne].
    + change (onmessage (Session.engine (engine a)) "readyok")
        with (@Resolve MainCallback).
      destruct (is_pending (engine a)) eqn:Hp; simpl.
      * erewrite init_continue_engine by (simpl; exact Hw).
        unfold Traffic.is_fulfilled, is_pending in *. simpl.
        now destruct (Session.promise (engine a)) as [[]|].
      * unfold Traffic.is_fulfilled, is_pending in *. simpl.
        now destruct (Session.promise (engine a)) as [[]|].
    + rewrite andb_false_r.
      destruct (onmessage (Session.engine (engine a)) data) as [|[] move|] eqn:R.
      * now apply onmessage_readyok in R.
      * rewrite onBestMove_closure_engine. now split.
      * now split.
  - unfold Traffic.is_fulfilled, is_pending.
    destruct (engine a) as [e [[]|] em]; now split.
  - destruct (timeouts a) as [|n]; [now split|].
    destruct (aiTimeout_promise (with_timeouts a n) now) as [Hp Hc].
    unfold Traffic.is_fulfilled. now rewrite Hp, Hc.
  - unfold play_as. destruct (_ && _); [now split|]. cbv zeta.
    match goal with
    | |- context [startNewGame ?x] => destruct (startNewGame_promise x) as [Hp Hc]
    end.
    unfold Traffic.is_fulfilled. now rewrite Hp, Hc.
  - unfold play_as. destruct (_ && _); [now split|]. cbv zeta.
    match goal with
    | |- context [startNewGame ?x] => destruct (startNewGame_promise x) as [Hp Hc]
    end.
    unfold Traffic.is_fulfilled. now rewrite Hp, Hc.
  - rewrite undo_click_engine. now split.
Qed.

Lemma step_configured a ev :
  Page.has_worker a ->
  Traffic.configured threads a -> Traffic.configured threads (step threads a ev).
Proof.
  intros Hw [Hsent Hcb]. unfold Traffic.configured.
  rewrite (step_sent a ev Hw), filter_app, filter_posted_by, Hsent.
  pose proof (step_promise a ev Hw) as Hp. cbv zeta in Hp.
  destruct (is_pending (engine a) && Traffic.is_readyok ev) eqn:Hcond.
  - destruct Hp as [-> ->].
    apply andb_prop in Hcond. destruct Hcond as [Hpend _].
    now rewrite (pending_not_fulfilled _ Hpend).
  - destruct Hp as [-> ->]. now rewrite app_nil_r.
Qed.

Lemma run_configured (difficulty time : number) (events : list (Event number)) :
  Traffic.configured threads (run threads (loaded (Game:=Game) difficulty time) events).
Proof.
  induction events as [|ev events IH] using rev_ind; [now split|].
  rewrite run_snoc. apply step_configured; [|exact IH].
  apply run_has_worker, loaded_has_worker.
Qed.

(** X17: the engine is configured once.  In every state the page can
    reach, the setoption commands sent so far are none while the promise of
    [init()] is not fulfilled, and from then on exactly the two of [init]
    (Threads, then Hash, with 64 times the threads), once; the [onBestMove]
    callback is set exactly from then on; and before that, no worker message
    other than 'readyok' has any effect on the game, the state or the
    page. *)
Theorem engine_configured_once
  (difficulty time : number) (events : list (Event number)) :
  let a := run threads (loaded (Game:=Game) difficulty time) events in
  filter Traffic.is_setoption (Page.sent a)
  = (if Traffic.is_fulfilled (engine a) then Traffic.options threads else []) /\
  onBestMove (Session.engine (engine a))
  = (if Traffic.is_fulfilled (engine a) then Some InitOnBestMove else None) /\
  (Traffic.is_fulfilled (engine a) = false ->
   forall data, data <> "readyok" ->
     let a' := step threads a (Message data) in
     game a' = game a /\ gameState a' = gameState a /\
     elements a' = elements a /\ timeouts a' = timeouts a /\
     Page.sent a' = Page.sent a).
Proof.
  intros a. destruct (run_configured difficulty time events) as [Hsent Hcb].
  fold a in Hsent, Hcb.
  split; [exact Hsent|]. split; [exact Hcb|].
  intros Hnot data Hne. rewrite Hnot in Hcb. cbv zeta. cbn [step].
  unfold Session.receive.
  destruct (worker (Session.engine (engine a))) as [w|] eqn:Hw; [|now repeat split].
  assert (R : onmessage (Session.engine (engine a)) data = Nothing).
  { unfold onmessage. apply String.eqb_neq in Hne. rewrite Hne, Hcb.
    now destruct (startsWith data "bestmove"). }
  rewrite R. now repeat split.
Qed.

End PageFacts.

(** *** More runs on concrete inputs *)

Module MoreExamples.
Import Main Inputs MoreInputs.
#[local] Existing Instance PawnPush.PawnPush_Chess.

Lemma onmessage_bestmove_lines_witness :
  let data := "bestmove e7e6 ponder d2d3" in
  (onBestMove ready = Some tt /\
   "e7e6" <> "" /\ "e7e6" <> "(none)" /\ Lines.no_space "e7e6" = true /\
   exists first tail,
     data = first ++ " " ++ "e7e6" ++ tail /\
     startsWith first "bestmove" = true /\
     Lines.no_space first = true /\
     Lines.ends_piece tail = true) /\
  onmessage ready data = BestMove tt "e7e6".
Proof.
  assert (Hline : onBestMove ready = Some tt /\
                  "e7e6" <> "" /\ "e7e6" <> "(none)" /\
                  Lines.no_space "e7e6" = true /\
                  exists first tail,
                    "bestmove e7e6 ponder d2d3" = first ++ " " ++ "e7e6" ++ tail /\
                    startsWith first "bestmove" = true /\
                    Lines.no_space first = true /\
                    Lines.ends_piece tail = true).
  { repeat split; try discriminate.
    exists "bestmove", " ponder d2d3". now repeat split. }
  split; [exact Hline|].
  apply (proj2 (onmessage_bestmove_lines ready _ tt "e7e6")). exact Hline.
Defined.

Lemma posted_messages_only_grow_witness :
  let op : Session.Op IntOrNaN unit := Session.CallNewGame in
  op <> Session.CallInit /\
  exists more,
    messages_of (Session.engine (Session.step started op))
    = (messages_of (Session.engine started) ++ more)%list /\
    List.length more <= 1.
Proof.
  split; [discriminate|].
  apply (proj1 (posted_messages_only_grow started Session.CallNewGame)).
  discriminate.
Defined.

Lemma e2_is_drawn :
  In e2_selected_square (renderBoard_fragment (PawnPush.run e2_selected)).
Proof.
  apply (nth_error_In _ 52). vm_compute. reflexivity.
Defined.

Lemma board_shows_the_position_witness :
  let a := PawnPush.run e2_selected in
  In e2_selected_square (renderBoard_fragment a) /\
  match Chess_get (game a) (dataset_square e2_selected_square) with
  | None => Scene.piece_spans e2_selected_square = []
  | Some pc =>
      exists glyph,
        PIECES_get (Scene.piece_key (piece_color pc) (piece_type pc)) = Some glyph /\
        Scene.piece_spans e2_selected_square
        = [(Some glyph, Scene.piece_class (piece_color pc))] /\
        forall c t, PIECES_get (Scene.piece_key c t) = Some glyph ->
                    c = piece_color pc /\ t = piece_type pc
  end.
Proof.
  split; [exact e2_is_drawn|].
  apply (board_shows_the_position (PawnPush.run e2_selected) e2_selected_square).
  exact e2_is_drawn.
Defined.

Lemma square_colour_by_name_witness :
  In e2_selected_square (renderBoard_fragment (PawnPush.run e2_selected)) /\
  Scene.colour_of e2_selected_square
  = (if Scene.light_square (dataset_square e2_selected_square)
     then "light" else "dark").
Proof.
  split; [exact e2_is_drawn|].
  apply (square_colour_by_name (PawnPush.run e2_selected) e2_selected_square).
  exact e2_is_drawn.
Defined.

Lemma board_labels_witness :
  Scene.rank_labels [renderBoard_cell (PawnPush.run e2_selected) 3 0] <> [] /\
  0 = 0.
Proof.
  assert (Hlabel : Scene.rank_labels
                     [renderBoard_cell (PawnPush.run e2_selected) 3 0] <> [])
    by (vm_compute; discriminate).
  split; [exact Hlabel|].
  apply (proj1 (board_labels (PawnPush.run e2_selected)) 3 0). exact Hlabel.
Defined.

Lemma renderHistory_entries_witness :
  let a := PawnPush.run reply_played in
  nth_error (Chess_history (game a)) 1 = Some e7e6 /\
  exists entry,
    nth_error (history (elements (renderHistory a))) 1 = Some entry /\
    history_from entry = move_from e7e6 /\
    history_to entry = move_to e7e6 /\
    history_moveNumber entry = 1 / 2 + 1 /\
    history_className entry = (if Nat.even 1 then "white" else "black").
Proof.
  assert (Hmove : nth_error (Chess_history (game (PawnPush.run reply_played))) 1
                  = Some e7e6) by (vm_compute; reflexivity).
  split; [exact Hmove|].
  apply (proj1 (proj2 (renderHistory_entries (PawnPush.run reply_played))) 1 e7e6).
  exact Hmove.
Defined.

Lemma handleMove_outcomes_witness :
  let a := PawnPush.run e2_selected in
  let a' := handleMove a e2e3 in
  Chess_move (game a) e2e3 = Returns [e2e3] /\
  game a' = [e2e3] /\
  Page.selection a' = (None, []) /\
  timeouts a' = S (timeouts a) /\
  isAiThinking (gameState a') = true /\
  status (elements a') = "AI is thinking...".
Proof.
  assert (Hmove : Chess_move (game (PawnPush.run e2_selected)) e2e3 = Returns [e2e3])
    by (vm_compute; reflexivity).
  pose proof (handleMove_outcomes (PawnPush.run e2_selected) e2e3) as Hthm.
  rewrite Hmove in Hthm. cbv zeta in Hthm.
  destruct Hthm as (Hg & Hsel & _ & _ & _ & _ & Hturn).
  change (Chess_isGameOver (game:=PawnPush.Position) [e2e3]) with false in Hturn.
  destruct Hturn as (Ht & Hth & Hst).
  exact (conj Hmove (conj Hg (conj Hsel (conj Ht (conj Hth Hst))))).
Defined.


Lemma play_as_outcomes_witness :
  Page.has_worker PawnPush.page /\
  (let a' := play_as PawnPush.page Black false in
   Page.sent a' = (Page.sent PawnPush.page ++ ["ucinewgame"])%list /\
   game a' = Chess_reset (game PawnPush.page) /\
   playerColor (gameState a') = Black /\
   Page.selection a' = (None, []) /\
   board (elements a') = renderBoard_fragment a' /\
   (isAiThinking (gameState a') = true /\
    timeouts a' = S (timeouts PawnPush.page))).
Proof.
  assert (Hw : Page.has_worker PawnPush.page) by (now eexists).
  split; [exact Hw|].
  exact (play_as_outcomes PawnPush.page Black false Hw).
Defined.

Lemma page_squares_witness :
  In e3_offered
    (board (elements (run (Int 1) (loaded (Game:=PawnPush.Position) (Int 10) (Int 1000))
                        e2_selected))) /\
  Scene.wired e3_offered /\
  (Scene.has_class "possible-move" e3_offered = true <->
   exists move, onclick e3_offered = OnHandleMove move) /\
  (Scene.has_class "selected" e3_offered = true <->
   selectedSquare
     (gameState (run (Int 1) (loaded (Game:=PawnPush.Position) (Int 10) (Int 1000))
                   e2_selected))
   = Some (dataset_square e3_offered)).
Proof.
  assert (Hin : In e3_offered
                  (board (elements
                            (run (Int 1)
                               (loaded (Game:=PawnPush.Position) (Int 10) (Int 1000))
                               e2_selected))))
    by (apply (nth_error_In _ 44); vm_compute; reflexivity).
  exact (conj Hin
           (page_squares (Int 1) (Int 10) (Int 1000) e2_selected e3_offered Hin)).
Defined.

Lemma thinking_locks_the_board_witness :
  isAiThinking
    (gameState (run (Int 1) (loaded (Game:=PawnPush.Position) (Int 10) (Int 1000))
                  e2e3_played)) = true /\
  (let a := run (Int 1) (loaded (Game:=PawnPush.Position) (Int 10) (Int 1000))
              e2e3_played in
   Page.selection a = (None, []) /\
   (forall el, In el (board (elements a)) ->
               onclick el = OnHandleSquareClick (dataset_square el)) /\
   (forall i, step (Int 1) a (Click i) = a) /\
   step (Int 1) a Undo = a).
Proof.
  assert (Hth : isAiThinking
                  (gameState
                     (run (Int 1)
                        (loaded (Game:=PawnPush.Position) (Int 10) (Int 1000))
                        e2e3_played)) = true)
    by (vm_compute; reflexivity).
  exact (conj Hth
           (thinking_locks_the_board (Int 1) (Int 10) (Int 1000) e2e3_played Hth)).
Defined.

Lemma engine_configured_once_witness :
  let a := PawnPush.run [] in
  let a' := step (Int 1) a (Message "bestmove e2e4") in
  Traffic.is_fulfilled (engine a) = false /\
  "bestmove e2e4" <> "readyok" /\
  game a' = game a /\ gameState a' = gameState a /\
  elements a' = elements a /\ timeouts a' = timeouts a /\
  Page.sent a' = Page.sent a.
Proof.
  split; [reflexivity|]. split; [discriminate|].
  apply (proj2 (proj2 (engine_configured_once (Game:=PawnPush.Position)
                         (Int 1) (Int 10) (Int 1000) []))).
  - reflexivity.
  - discriminate.
Defined.

End MoreExamples.
